(** * Minio web handlers (web-handlers.go): a shallow embedding

    The browser console's JSON-RPC methods, the two streaming handlers
    and the error writer of [web-handlers.go], over an explicit world
    (the state of the external collaborators, the in-memory credential
    and the log of collaborator calls made so far). *)

From Stdlib Require Import String Ascii List ZArith Bool Lia.
Import ListNotations.
Open Scope string_scope.
Open Scope Z_scope.

Set Implicit Arguments.

(** ** Go values used by the handlers *)

(** [time.Time], as an instant; its zero value is [Time_zero]. *)
Inductive Time : Type := TimeAt (instant : Z).
Definition Time_zero : Time := TimeAt 0.

(** The pair held by the configuration store. *)
Record credential : Type := mkCredential {
  AccessKeyID : string;
  SecretAccessKey : string
}.

(** A non-nil Go [error], tagged by its dynamic type as the type switch of
    [writeWebErrorResponse] sees it.  [errInvalidToken] is the package's
    sentinel value, compared by identity; [otherError] stands for every
    other dynamic type. *)
Inductive goError : Type :=
| errInvalidToken
| fs_RootPathFull (detail : string)
| fs_BucketNotFound (detail : string)
| fs_BucketNameInvalid (detail : string)
| fs_BadDigest (detail : string)
| fs_IncompleteBody (detail : string)
| fs_ObjectExistsAsPrefix (detail : string)
| fs_ObjectNotFound (detail : string)
| fs_ObjectNameInvalid (detail : string)
| otherError (dynamicType message : string).

(** [*probe.Error]: the wrapped cause and the call trace it prints. *)
Record probeError : Type := mkProbe {
  Cause : goError;
  probeTrace : string
}.
Definition ToGoError (e : probeError) : goError := Cause e.

(** [json2.Error] *)
Record json2Error : Type := mkJson2Error {
  Message : string;
  Data : option string
}.
Definition json2_Error (msg : string) : json2Error :=
  {| Message := msg; Data := None |}.

(** Signing methods of the token library, by their Go type. *)
Inductive SigningMethod : Type :=
| SigningMethodHMAC (name : string)
| SigningMethodRSA (name : string)
| SigningMethodECDSA (name : string)
| SigningMethodNone.

Record Token : Type := mkToken {
  Raw : string;
  Method : SigningMethod;
  Header_alg : string;
  Valid : bool
}.

(** [http.Request], reduced to what the handlers read. *)
Record Request : Type := mkRequest {
  Header : list (string * string);
  Form : list (string * string);
  URL_Query : list (string * string);
  Vars : list (string * string);
  Body : string
}.

(** Lookup in a Go [map[string]string] / [url.Values.Get]: the empty string
    when the key is absent. *)
Fixpoint lookup (k : string) (m : list (string * string)) : string :=
  match m with
  | [] => ""
  | (k', v) :: m' => if String.eqb k k' then v else lookup k m'
  end.

(** [http.ResponseWriter], as the sequence of operations performed on it. *)
Inductive RespOp : Type :=
| WriteHeader (status : Z)
| Write (body : string)
| Header_Set (key value : string).
Definition ResponseWriter : Type := list RespOp.

Definition http_StatusForbidden : Z := 403.

(** ** Backend values (package fs, package disk, runtime) *)

Module fs.
Record BucketInfo : Type := mkBucketInfo {
    Name : string;
    Created : Time
  }.
Record ObjectInfo : Type := mkObjectInfo {
    oName : string;
    ModifiedTime : Time;
    ContentType : string;
    Size : Z
  }.
Record ListObjectsResult : Type := mkListObjectsResult {
    IsTruncated : bool;
    NextMarker : string;
    Objects : list ObjectInfo;
    Prefixes : list string
  }.
End fs.

Module disk.
Record Info : Type := mkInfo {
    Total : Z;
    Free : Z;
    FSType : string
  }.
Definition zero : Info := {| Total := 0; Free := 0; FSType := "" |}.
End disk.

Record MemStats : Type := mkMemStats {
  Alloc : Z;
  TotalAlloc : Z;
  HeapAlloc : Z;
  HeapSys : Z
}.

(** ** Request and reply structures of web-handlers.go *)

Record GenericArgs : Type := mkGenericArgs { }.

Module GenericRep.
Record t : Type := mk { UIVersion : string }.
Definition zero : t := mk "".
End GenericRep.

Module ServerInfoRep.
Record t : Type := mk {
    MinioVersion : string;
    MinioMemory : string;
    MinioPlatform : string;
    MinioRuntime : string;
    UIVersion : string
  }.
Definition zero : t := mk "" "" "" "" "".
End ServerInfoRep.

Module DiskInfoRep.
Record t : Type := mk {
    DiskInfo : disk.Info;
    UIVersion : string
  }.
Definition zero : t := mk disk.zero "".
End DiskInfoRep.

Module MakeBucketArgs.
Record t : Type := mk { BucketName : string }.
End MakeBucketArgs.

Module BucketInfo.
Record t : Type := mk {
    Name : string;
    CreationDate : Time
  }.
End BucketInfo.

Module ListBucketsRep.
Record t : Type := mk {
    Buckets : list BucketInfo.t;
    UIVersion : string
  }.
Definition zero : t := mk [] "".
End ListBucketsRep.

Module ListObjectsArgs.
Record t : Type := mk {
    BucketName : string;
    Prefix : string
  }.
End ListObjectsArgs.

Module ObjectInfo.
Record t : Type := mk {
    Key : string;
    LastModified : Time;
    Size : Z;
    ContentType : string
  }.
End ObjectInfo.

Module ListObjectsRep.
Record t : Type := mk {
    Objects : list ObjectInfo.t;
    UIVersion : string
  }.
Definition zero : t := mk [] "".
End ListObjectsRep.

Module RemoveObjectArgs.
Record t : Type := mk {
    TargetHost : string;
    BucketName : string;
    ObjectName : string
  }.
End RemoveObjectArgs.

Module LoginArgs.
Record t : Type := mk {
    Username : string;
    Password : string
  }.
End LoginArgs.

Module LoginRep.
Record t : Type := mk {
    Token : string;
    UIVersion : string
  }.
Definition zero : t := mk "" "".
End LoginRep.

Module GenerateAuthReply.
Record t : Type := mk {
    AccessKey : string;
    SecretKey : string;
    UIVersion : string
  }.
Definition zero : t := mk "" "" "".
End GenerateAuthReply.

Module SetAuthArgs.
Record t : Type := mk {
    AccessKey : string;
    SecretKey : string
  }.
End SetAuthArgs.

Module SetAuthReply.
Record t : Type := mk {
    Token : string;
    UIVersion : string
  }.
Definition zero : t := mk "" "".
End SetAuthReply.

Module GetAuthReply.
Record t : Type := mk {
    AccessKey : string;
    SecretKey : string;
    UIVersion : string
  }.
Definition zero : t := mk "" "" "".
End GetAuthReply.

(** ** API errors (the codes web-handlers.go asks for) *)

Inductive APIErrorCode : Type :=
| ErrRootPathFull
| ErrNoSuchBucket
| ErrInvalidBucketName
| ErrBadDigest
| ErrIncompleteBody
| ErrObjectExistsAsPrefix
| ErrNoSuchKey
| ErrInternalError.

Record APIError : Type := mkAPIError {
  Code : string;
  Description : string;
  HTTPStatusCode : Z
}.

(** The table behind [getAPIError] lives in another file of the package;
    the handlers are stated over any table. *)
Class APIErrors : Type := {
  getAPIError : APIErrorCode -> APIError
}.

(** ** The collaborators

    [Sys] is the state of everything outside this file: the storage
    backend, the configuration file, the clock, the random source and the
    operating system.  Every operation takes the current state and yields
    its result with the next state. *)

Class Platform (Sys : Type) : Type := {
  os_Hostname : Sys -> (string * option goError) * Sys;
  runtime_ReadMemStats : Sys -> MemStats * Sys;
  runtime_GOOS : string;
  runtime_GOARCH : string;
  runtime_Version : string;
  runtime_NumCPU : Z;
  humanize_Bytes : Z -> string;
  strconv_Itoa : Z -> string;
  path_Base : string -> string;
  filepath_Base : string -> string;
  (** the [Error()] method of an error value *)
  Error : goError -> string;
  probe_String : probeError -> string;
  minioVersion : string;
  miniobrowser_UIVersion : string;
  reservedBucket : string
}.

Class Filesystem (Sys : Type) : Type := {
  GetRootPath : Sys -> string * Sys;
  disk_GetInfo : string -> Sys -> (disk.Info * option goError) * Sys;
  fs_MakeBucket : string -> Sys -> option probeError * Sys;
  fs_ListBuckets : Sys -> (list fs.BucketInfo * option probeError) * Sys;
  fs_ListObjects : string -> string -> string -> string -> Z -> Sys ->
                   (fs.ListObjectsResult * option probeError) * Sys;
  fs_DeleteObject : string -> string -> Sys -> option probeError * Sys;
  fs_CreateObject : string -> string -> Z -> string -> Sys ->
                    option probeError * Sys;
  fs_GetObject : ResponseWriter -> string -> string -> Z -> Z -> Sys ->
                 (ResponseWriter * option probeError) * Sys
}.

(** The token library and the package's own token and configuration
    helpers. *)
Class Auth (Sys : Type) : Type := {
  (** where the token library finds the token string of a request *)
  jwt_requestToken : Request -> option string;
  (** splitting and decoding of the three segments, with the lookup of the
      signing method named by the header *)
  jwt_decode : string -> option Token;
  (** the method's signature check under a key, with the time claims *)
  jwt_verify : Sys -> Token -> string -> bool;
  jwt_Authenticate : credential -> string -> string -> bool;
  jwt_GenerateToken : credential -> string -> Sys ->
                      (string * option probeError) * Sys;
  mustGenAccessKeys : Sys -> credential * Sys;
  (** writing the configuration to stable storage *)
  config_Save : credential -> Sys -> option probeError * Sys
}.

(** ** The world and the handler monad *)

(** A call made to a collaborator, as a counting stub would record it. *)
Inductive Call : Type :=
| call_Hostname
| call_ReadMemStats
| call_GetRootPath
| call_disk_GetInfo (path : string)
| call_MakeBucket (bucket : string)
| call_ListBuckets
| call_ListObjects (bucket prefix marker delimiter : string) (maxKeys : Z)
| call_DeleteObject (bucket object : string)
| call_CreateObject (bucket object : string) (size : Z)
| call_GetObject (bucket object : string) (startOffset length : Z)
| call_mustGenAccessKeys
| call_SetCredential (cred : credential)
| call_Save
| call_GetCredential
| call_Authenticate (accessKey secretKey : string)
| call_GenerateToken (accessKey : string).

Section Web.

Context {Sys : Type}.
Context {platform : Platform Sys} {filesystem : Filesystem Sys}
        {auth : Auth Sys} {apiErrors : APIErrors}.

(** [sys]: the collaborators' state; [serverConfig]: the active credential
    of the process; [calls]: the collaborator calls made so far, oldest
    first. *)
Record World : Type := mkWorld {
  sys : Sys;
  serverConfig : credential;
  calls : list Call
}.

Definition M (A : Type) : Type := World -> A * World.

Definition ret {A : Type} (a : A) : M A := fun w => (a, w).

Definition bind {A B : Type} (m : M A) (k : A -> M B) : M B :=
  fun w => let (a, w') := m w in k a w'.

(** Read the world without touching it. *)
Definition gets {A : Type} (f : World -> A) : M A := fun w => (f w, w).

(** Run a collaborator operation and record the call. *)
Definition call {A : Type} (c : Call) (op : Sys -> A * Sys) : M A :=
  fun w =>
    let (a, s') := op (sys w) in
    (a, {| sys := s'; serverConfig := serverConfig w;
           calls := calls w ++ [c] |}).

Declare Scope web_scope.
Delimit Scope web_scope with web.
Notation "x <- c1 ;; c2" := (bind c1 (fun x => c2))
  (at level 61, c1 at next level, right associativity) : web_scope.
Notation "' pat <- c1 ;; c2" := (bind c1 (fun x => match x with pat => c2 end))
  (at level 61, pat pattern, c1 at next level, right associativity) : web_scope.
Local Open Scope web_scope.

(** *** The configuration store and the token helper *)

(** Modelled from the spec: [serverConfig.GetCredential] and
    [serverConfig.SetCredential] are not in web-handlers.go.  The store
    holds exactly one active pair: get-active-credential reads it,
    set-active-credential replaces it. *)
Definition serverConfig_GetCredential : M credential :=
  fun w => (serverConfig w,
            {| sys := sys w; serverConfig := serverConfig w;
               calls := calls w ++ [call_GetCredential] |}).

(** Modelled from the spec: [serverConfig.SetCredential], the store's
    set-active-credential, replaces the active pair. *)
Definition serverConfig_SetCredential (cred : credential) : M unit :=
  fun w => (tt,
            {| sys := sys w; serverConfig := cred;
               calls := calls w ++ [call_SetCredential cred] |}).

(** [serverConfig.Save]: persists the active pair; may fail. *)
Definition serverConfig_Save : M (option probeError) :=
  fun w => call call_Save (config_Save (serverConfig w)) w.

(** [JWT]: the token helper embeds the credential it was created with. *)
Definition JWT : Type := credential.

(** Modelled from the spec: [initJWT] is not in web-handlers.go.  It
    loads the active credential pair, whose secret is the single shared
    secret; it has no side effect. *)
Definition initJWT (w : World) : JWT := serverConfig w.

Definition isSigningMethodHMAC (m : SigningMethod) : bool :=
  match m with
  | SigningMethodHMAC _ => true
  | _ => false
  end.

(** Modelled from the spec: [jwtgo.Parse] is not in web-handlers.go.  The
    token string is decoded (which fails when it is malformed or names no
    known signing method), the caller's key function is asked for the key
    and its error ends the parse, then the signature and the time claims
    are checked under that key; only then is the token marked valid. *)
Definition Parse (s : Sys) (tokenString : string)
    (keyFunc : Token -> string + goError) : Token + goError :=
  match jwt_decode tokenString with
  | None => inr (otherError "*jwt.ValidationError" "token is malformed")
  | Some token =>
      match keyFunc token with
      | inr err => inr (otherError "*jwt.ValidationError" (Error err))
      | inl key =>
          if jwt_verify s token key
          then inl {| Raw := Raw token; Method := Method token;
                      Header_alg := Header_alg token; Valid := true |}
          else inr (otherError "*jwt.ValidationError" "token is invalid")
      end
  end.

(** Modelled from the spec: [jwtgo.ParseFromRequest] is not in
    web-handlers.go.  It takes the token from the request's standard
    authorization convention and parses it. *)
Definition ParseFromRequest (s : Sys) (req : Request)
    (keyFunc : Token -> string + goError) : Token + goError :=
  match jwt_requestToken req with
  | Some tokenString => Parse s tokenString keyFunc
  | None => inr (otherError "*errors.errorString" "no token present in request")
  end.

(** Whether a token string declares a signing method of the HMAC family:
    it must decode, which includes finding the method its header names,
    and that method must be an HMAC one. *)
Definition declaresHMAC (tokenString : string) : bool :=
  match jwt_decode tokenString with
  | Some token => isSigningMethodHMAC (Method token)
  | None => false
  end.

(** *** The token check *)

Definition isJWTReqAuthenticated (w : World) (req : Request) : bool :=
  let jwt := initJWT w in
  match ParseFromRequest (sys w) req
          (fun token =>
             if negb (isSigningMethodHMAC (Method token))
             then inr (otherError "*errors.errorString"
                         ("Unexpected signing method: " ++ Header_alg token))
             else inl (SecretAccessKey jwt)) with
  | inr e => false
  | inl token => Valid token
  end.

Definition Unauthorized : json2Error := json2_Error "Unauthorized request".

(** *** ServerInfo - get server info. *)
Definition ServerInfo (r : Request) (args : GenericArgs)
    (reply : ServerInfoRep.t) : M (ServerInfoRep.t * option json2Error) :=
  authenticated <- gets (fun st => isJWTReqAuthenticated st r) ;;
  if negb authenticated then ret (reply, Some Unauthorized) else
  ' (host, err) <- call call_Hostname os_Hostname ;;
  let host := match err with Some _ => "" | None => host end in
  memstats <- call call_ReadMemStats runtime_ReadMemStats ;;
  let mem := "Used: " ++ humanize_Bytes (Alloc memstats)
             ++ " | Allocated: " ++ humanize_Bytes (TotalAlloc memstats)
             ++ " | Used-Heap: " ++ humanize_Bytes (HeapAlloc memstats)
             ++ " | Allocated-Heap: " ++ humanize_Bytes (HeapSys memstats) in
  let platform := "Host: " ++ host ++ " | OS: " ++ runtime_GOOS
                  ++ " | Arch: " ++ runtime_GOARCH in
  let goruntime := "Version: " ++ runtime_Version
                   ++ " | CPUs: " ++ strconv_Itoa runtime_NumCPU in
  ret ({| ServerInfoRep.MinioVersion := minioVersion;
          ServerInfoRep.MinioMemory := mem;
          ServerInfoRep.MinioPlatform := platform;
          ServerInfoRep.MinioRuntime := goruntime;
          ServerInfoRep.UIVersion := miniobrowser_UIVersion |}, None).

(** *** DiskInfo - get disk statistics. *)
Definition DiskInfo (r : Request) (args : GenericArgs)
    (reply : DiskInfoRep.t) : M (DiskInfoRep.t * option json2Error) :=
  authenticated <- gets (fun st => isJWTReqAuthenticated st r) ;;
  if negb authenticated then ret (reply, Some Unauthorized) else
  root <- call call_GetRootPath GetRootPath ;;
  ' (info, e) <- call (call_disk_GetInfo root) (disk_GetInfo root) ;;
  match e with
  | Some e => ret (reply, Some (json2_Error (Error e)))
  | None =>
      ret ({| DiskInfoRep.DiskInfo := info;
              DiskInfoRep.UIVersion := miniobrowser_UIVersion |}, None)
  end.

(** *** MakeBucket - make a bucket. *)
Definition MakeBucket (r : Request) (args : MakeBucketArgs.t)
    (reply : GenericRep.t) : M (GenericRep.t * option json2Error) :=
  authenticated <- gets (fun st => isJWTReqAuthenticated st r) ;;
  if negb authenticated then ret (reply, Some Unauthorized) else
  let reply := {| GenericRep.UIVersion := miniobrowser_UIVersion |} in
  e <- call (call_MakeBucket (MakeBucketArgs.BucketName args))
            (fs_MakeBucket (MakeBucketArgs.BucketName args)) ;;
  match e with
  | Some e => ret (reply, Some (json2_Error (Error (Cause e))))
  | None => ret (reply, None)
  end.

(** *** ListBuckets - list buckets api. *)

(** One turn of the [range buckets] loop. *)
Definition ListBuckets_step (reply : ListBucketsRep.t) (bucket : fs.BucketInfo)
    : ListBucketsRep.t :=
  if negb (String.eqb (fs.Name bucket) (path_Base reservedBucket))
  then {| ListBucketsRep.Buckets :=
            ListBucketsRep.Buckets reply ++
            [ {| BucketInfo.Name := fs.Name bucket;
                 BucketInfo.CreationDate := fs.Created bucket |} ];
          ListBucketsRep.UIVersion := ListBucketsRep.UIVersion reply |}
  else reply.

Definition ListBuckets (r : Request) (args : GenericArgs)
    (reply : ListBucketsRep.t) : M (ListBucketsRep.t * option json2Error) :=
  authenticated <- gets (fun st => isJWTReqAuthenticated st r) ;;
  if negb authenticated then ret (reply, Some Unauthorized) else
  ' (buckets, e) <- call call_ListBuckets fs_ListBuckets ;;
  match e with
  | Some e => ret (reply, Some (json2_Error (Error (Cause e))))
  | None =>
      let reply := fold_left ListBuckets_step buckets reply in
      ret ({| ListBucketsRep.Buckets := ListBucketsRep.Buckets reply;
              ListBucketsRep.UIVersion := miniobrowser_UIVersion |}, None)
  end.

(** What the loop keeps of the backend's listing: the buckets not named as
    the base of the reserved path, each as a reply entry. *)
Definition visibleBucket (bucket : fs.BucketInfo) : bool :=
  negb (String.eqb (fs.Name bucket) (path_Base reservedBucket)).

Definition bucketEntry (bucket : fs.BucketInfo) : BucketInfo.t :=
  {| BucketInfo.Name := fs.Name bucket;
     BucketInfo.CreationDate := fs.Created bucket |}.

(** *** ListObjects - list objects api. *)

(** The two inner [range] loops: one reply entry per backend object, then
    one per common prefix. *)
Definition ListObjects_object (reply : ListObjectsRep.t) (obj : fs.ObjectInfo)
    : ListObjectsRep.t :=
  {| ListObjectsRep.Objects :=
       ListObjectsRep.Objects reply ++
       [ {| ObjectInfo.Key := fs.oName obj;
            ObjectInfo.LastModified := fs.ModifiedTime obj;
            ObjectInfo.Size := fs.Size obj;
            ObjectInfo.ContentType := "" |} ];
     ListObjectsRep.UIVersion := ListObjectsRep.UIVersion reply |}.

Definition ListObjects_prefix (reply : ListObjectsRep.t) (prefix : string)
    : ListObjectsRep.t :=
  {| ListObjectsRep.Objects :=
       ListObjectsRep.Objects reply ++
       [ {| ObjectInfo.Key := prefix;
            ObjectInfo.LastModified := Time_zero;
            ObjectInfo.Size := 0;
            ObjectInfo.ContentType := "" |} ];
     ListObjectsRep.UIVersion := ListObjectsRep.UIVersion reply |}.

(** The [for { ... }] loop.  Go's loop has no bound; [fuel] counts the
    turns allowed and [None] means they ran out.  The result tells how the
    loop was left: by [break] (no error) or by the [return] of a backend
    failure. *)
Fixpoint ListObjects_loop (fuel : nat) (args : ListObjectsArgs.t)
    (marker : string) (reply : ListObjectsRep.t) (st : World)
    : option ((ListObjectsRep.t * option json2Error) * World) :=
  match fuel with
  | O => None
  | S fuel' =>
      let bucket := ListObjectsArgs.BucketName args in
      let prefix := ListObjectsArgs.Prefix args in
      let '((lo, err), st1) :=
        call (call_ListObjects bucket prefix marker "/" 1000)
             (fs_ListObjects bucket prefix marker "/" 1000) st in
      match err with
      | Some err => Some ((reply, Some (json2_Error (Error (Cause err)))), st1)
      | None =>
          let marker := fs.NextMarker lo in
          let reply := fold_left ListObjects_object (fs.Objects lo) reply in
          let reply := fold_left ListObjects_prefix (fs.Prefixes lo) reply in
          if negb (fs.IsTruncated lo)
          then Some ((reply, None), st1)
          else ListObjects_loop fuel' args marker reply st1
      end
  end.

Definition ListObjects (fuel : nat) (r : Request) (args : ListObjectsArgs.t)
    (reply : ListObjectsRep.t) (st : World)
    : option ((ListObjectsRep.t * option json2Error) * World) :=
  let marker := "" in
  if negb (isJWTReqAuthenticated st r)
  then Some ((reply, Some Unauthorized), st)
  else
    match ListObjects_loop fuel args marker reply st with
    | None => None
    | Some ((reply, Some e), st') => Some ((reply, Some e), st')
    | Some ((reply, None), st') =>
        Some (({| ListObjectsRep.Objects := ListObjectsRep.Objects reply;
                  ListObjectsRep.UIVersion := miniobrowser_UIVersion |},
               None), st')
    end.

(** The listing the backend hands out for [args], page after page: the
    first request carries [marker], every later one the continuation
    marker of the page before it, and the last page is the first one the
    backend reports as not truncated. *)
Inductive Paged (args : ListObjectsArgs.t)
    : string -> Sys -> list fs.ListObjectsResult -> Sys -> Prop :=
| Paged_last : forall marker s lo s',
    fs_ListObjects (ListObjectsArgs.BucketName args)
                   (ListObjectsArgs.Prefix args) marker "/" 1000 s
      = ((lo, None), s') ->
    fs.IsTruncated lo = false ->
    Paged args marker s [lo] s'
| Paged_more : forall marker s lo s1 los s',
    fs_ListObjects (ListObjectsArgs.BucketName args)
                   (ListObjectsArgs.Prefix args) marker "/" 1000 s
      = ((lo, None), s1) ->
    fs.IsTruncated lo = true ->
    Paged args (fs.NextMarker lo) s1 los s' ->
    Paged args marker s (lo :: los) s'.

(** The markers of the requests that fetch [los], the first one being
    [marker]. *)
Fixpoint requestMarkers (marker : string) (los : list fs.ListObjectsResult)
    : list string :=
  match los with
  | [] => []
  | lo :: los' => marker :: requestMarkers (fs.NextMarker lo) los'
  end.

(** The call the loop logs for a request with [marker]. *)
Definition listCall (args : ListObjectsArgs.t) (marker : string) : Call :=
  call_ListObjects (ListObjectsArgs.BucketName args)
                   (ListObjectsArgs.Prefix args) marker "/" 1000.

(** The reply entry of a backend object and of a common prefix, and the
    entries of one page in the order the handler appends them. *)
Definition objectEntry (obj : fs.ObjectInfo) : ObjectInfo.t :=
  {| ObjectInfo.Key := fs.oName obj;
     ObjectInfo.LastModified := fs.ModifiedTime obj;
     ObjectInfo.Size := fs.Size obj;
     ObjectInfo.ContentType := "" |}.

Definition prefixEntry (prefix : string) : ObjectInfo.t :=
  {| ObjectInfo.Key := prefix;
     ObjectInfo.LastModified := Time_zero;
     ObjectInfo.Size := 0;
     ObjectInfo.ContentType := "" |}.

Definition pageEntries (lo : fs.ListObjectsResult) : list ObjectInfo.t :=
  (map objectEntry (fs.Objects lo) ++ map prefixEntry (fs.Prefixes lo))%list.

(** A listing that breaks off: the pages fetched before the backend
    fails, every one of them truncated, the failure of the request that
    follows them, and the backend state it leaves. *)
Inductive PagedFailing (args : ListObjectsArgs.t)
    : string -> Sys -> list fs.ListObjectsResult -> probeError -> Sys
      -> Prop :=
| PagedFailing_now : forall marker s lo err s',
    fs_ListObjects (ListObjectsArgs.BucketName args)
                   (ListObjectsArgs.Prefix args) marker "/" 1000 s
      = ((lo, Some err), s') ->
    PagedFailing args marker s [] err s'
| PagedFailing_later : forall marker s lo s1 los err s',
    fs_ListObjects (ListObjectsArgs.BucketName args)
                   (ListObjectsArgs.Prefix args) marker "/" 1000 s
      = ((lo, None), s1) ->
    fs.IsTruncated lo = true ->
    PagedFailing args (fs.NextMarker lo) s1 los err s' ->
    PagedFailing args marker s (lo :: los) err s'.

(** The marker of the request that follows the pages [los]. *)
Fixpoint followingMarker (marker : string) (los : list fs.ListObjectsResult)
    : string :=
  match los with
  | [] => marker
  | lo :: los' => followingMarker (fs.NextMarker lo) los'
  end.

(** *** RemoveObject - removes an object. *)
Definition RemoveObject (r : Request) (args : RemoveObjectArgs.t)
    (reply : GenericRep.t) : M (GenericRep.t * option json2Error) :=
  authenticated <- gets (fun st => isJWTReqAuthenticated st r) ;;
  if negb authenticated then ret (reply, Some Unauthorized) else
  let reply := {| GenericRep.UIVersion := miniobrowser_UIVersion |} in
  e <- call (call_DeleteObject (RemoveObjectArgs.BucketName args)
                               (RemoveObjectArgs.ObjectName args))
            (fs_DeleteObject (RemoveObjectArgs.BucketName args)
                             (RemoveObjectArgs.ObjectName args)) ;;
  match e with
  | Some e => ret (reply, Some (json2_Error (Error (Cause e))))
  | None => ret (reply, None)
  end.

(** *** Login - user login handler. *)
Definition Login (r : Request) (args : LoginArgs.t) (reply : LoginRep.t)
    : M (LoginRep.t * option json2Error) :=
  jwt <- gets initJWT ;;
  ok <- call (call_Authenticate (LoginArgs.Username args)
                                (LoginArgs.Password args))
             (fun s => (jwt_Authenticate jwt (LoginArgs.Username args)
                                         (LoginArgs.Password args), s)) ;;
  if ok then
    ' (token, err) <- call (call_GenerateToken (LoginArgs.Username args))
                           (jwt_GenerateToken jwt (LoginArgs.Username args)) ;;
    match err with
    | Some err =>
        ret (reply, Some {| Message := Error (Cause err);
                            Data := Some (probe_String err) |})
    | None =>
        ret ({| LoginRep.Token := token;
                LoginRep.UIVersion := miniobrowser_UIVersion |}, None)
    end
  else ret (reply, Some (json2_Error "Invalid credentials")).

(** *** GenerateAuth *)
Definition GenerateAuth (r : Request) (args : GenericArgs)
    (reply : GenerateAuthReply.t)
    : M (GenerateAuthReply.t * option json2Error) :=
  authenticated <- gets (fun st => isJWTReqAuthenticated st r) ;;
  if negb authenticated then ret (reply, Some Unauthorized) else
  cred <- call call_mustGenAccessKeys mustGenAccessKeys ;;
  ret ({| GenerateAuthReply.AccessKey := AccessKeyID cred;
          GenerateAuthReply.SecretKey := SecretAccessKey cred;
          GenerateAuthReply.UIVersion := miniobrowser_UIVersion |}, None).

(** *** SetAuth - Set accessKey and secretKey credentials. *)
Definition SetAuth (r : Request) (args : SetAuthArgs.t)
    (reply : SetAuthReply.t) : M (SetAuthReply.t * option json2Error) :=
  authenticated <- gets (fun st => isJWTReqAuthenticated st r) ;;
  if negb authenticated then ret (reply, Some Unauthorized) else
  if String.eqb (SetAuthArgs.AccessKey args) ""
  then ret (reply, Some (json2_Error "Empty access key not allowed")) else
  if String.eqb (SetAuthArgs.SecretKey args) ""
  then ret (reply, Some (json2_Error "Empty secret key not allowed")) else
  let cred := {| AccessKeyID := SetAuthArgs.AccessKey args;
                 SecretAccessKey := SetAuthArgs.SecretKey args |} in
  _ <- serverConfig_SetCredential cred ;;
  err <- serverConfig_Save ;;
  match err with
  | Some err => ret (reply, Some (json2_Error (Error (Cause err))))
  | None =>
      jwt <- gets initJWT ;;
      ok <- call (call_Authenticate (SetAuthArgs.AccessKey args)
                                    (SetAuthArgs.SecretKey args))
                 (fun s => (jwt_Authenticate jwt (SetAuthArgs.AccessKey args)
                                             (SetAuthArgs.SecretKey args), s)) ;;
      if negb ok then ret (reply, Some (json2_Error "Invalid credentials")) else
      ' (token, err) <- call (call_GenerateToken (SetAuthArgs.AccessKey args))
                             (jwt_GenerateToken jwt (SetAuthArgs.AccessKey args)) ;;
      match err with
      | Some err => ret (reply, Some (json2_Error (Error (Cause err))))
      | None =>
          ret ({| SetAuthReply.Token := token;
                  SetAuthReply.UIVersion := miniobrowser_UIVersion |}, None)
      end
  end.

(** *** GetAuth - return accessKey and secretKey credentials. *)
Definition GetAuth (r : Request) (args : GenericArgs)
    (reply : GetAuthReply.t) : M (GetAuthReply.t * option json2Error) :=
  authenticated <- gets (fun st => isJWTReqAuthenticated st r) ;;
  if negb authenticated then ret (reply, Some Unauthorized) else
  creds <- serverConfig_GetCredential ;;
  ret ({| GetAuthReply.AccessKey := AccessKeyID creds;
          GetAuthReply.SecretKey := SecretAccessKey creds;
          GetAuthReply.UIVersion := miniobrowser_UIVersion |}, None).

(** *** writeWebErrorResponse - set HTTP status code and write error
    description to the body. *)

Definition is_errInvalidToken (err : goError) : bool :=
  match err with
  | errInvalidToken => true
  | _ => false
  end.

(** [w.WriteHeader(apiErr.HTTPStatusCode); w.Write(apiErr.Description)] *)
Definition writeAPIError (w : ResponseWriter) (apiErr : APIError)
    : ResponseWriter :=
  (w ++ [WriteHeader (HTTPStatusCode apiErr); Write (Description apiErr)])%list.

Definition writeWebErrorResponse (w : ResponseWriter) (err : goError)
    : ResponseWriter :=
  if is_errInvalidToken err
  then (w ++ [WriteHeader http_StatusForbidden; Write (Error err)])%list
  else
    match err with
    | fs_RootPathFull _ => writeAPIError w (getAPIError ErrRootPathFull)
    | fs_BucketNotFound _ => writeAPIError w (getAPIError ErrNoSuchBucket)
    | fs_BucketNameInvalid _ =>
        writeAPIError w (getAPIError ErrInvalidBucketName)
    | fs_BadDigest _ => writeAPIError w (getAPIError ErrBadDigest)
    | fs_IncompleteBody _ => writeAPIError w (getAPIError ErrIncompleteBody)
    | fs_ObjectExistsAsPrefix _ =>
        writeAPIError w (getAPIError ErrObjectExistsAsPrefix)
    | fs_ObjectNotFound _ => writeAPIError w (getAPIError ErrNoSuchKey)
    | fs_ObjectNameInvalid _ => writeAPIError w (getAPIError ErrNoSuchKey)
    | _ => writeAPIError w (getAPIError ErrInternalError)
    end.

(** *** Upload - file upload handler. *)
Definition Upload (w : ResponseWriter) (r : Request) : M ResponseWriter :=
  authenticated <- gets (fun st => isJWTReqAuthenticated st r) ;;
  if negb authenticated then ret (writeWebErrorResponse w errInvalidToken) else
  let vars := Vars r in
  let bucket := lookup "bucket" vars in
  let object := lookup "object" vars in
  err <- call (call_CreateObject bucket object (-1))
              (fs_CreateObject bucket object (-1) (Body r)) ;;
  match err with
  | Some err => ret (writeWebErrorResponse w (ToGoError err))
  | None => ret w
  end.

(** *** Download - file download handler. *)

Definition quote : string := String (ascii_of_nat 34) EmptyString.

Definition Download (w : ResponseWriter) (r : Request) : M ResponseWriter :=
  let vars := Vars r in
  let bucket := lookup "bucket" vars in
  let object := lookup "object" vars in
  let token := lookup "token" (URL_Query r) in
  jwt <- gets initJWT ;;
  parsed <- gets (fun st =>
    Parse (sys st) token
      (fun token =>
         if negb (isSigningMethodHMAC (Method token))
         then inr (otherError "*errors.errorString"
                     ("Unexpected signing method: " ++ Header_alg token))
         else inl (SecretAccessKey jwt))) ;;
  if match parsed with
     | inr e => true
     | inl jwttoken => negb (Valid jwttoken)
     end
  then ret (writeWebErrorResponse w errInvalidToken)
  else
    let w := (w ++ [Header_Set "Content-Disposition"
                      ("attachment; filename=" ++ quote
                       ++ filepath_Base object ++ quote)%string])%list in
    ' (w, err) <- call (call_GetObject bucket object 0 0)
                       (fs_GetObject w bucket object 0 0) ;;
    match err with
    | Some err => ret (writeWebErrorResponse w (ToGoError err))
    | None => ret w
    end.

End Web.

Arguments World : clear implicits.
Arguments M : clear implicits.

(** ** The API error table of the specification *)

(** Modelled from the spec: the table read by [getAPIError] is not in
    web-handlers.go.  The specification gives the status class of every
    row (storage root exhausted: resource-exhausted; bucket not found and
    object not found: not-found; invalid bucket name, digest mismatch and
    incomplete body: bad-request; collision with a prefix: conflict;
    anything unrecognized: internal-error) and leaves codes and
    descriptions open, so they are a parameter here. *)
Inductive StatusClass : Type :=
| ResourceExhausted
| NotFound
| BadRequest
| Conflict
| Forbidden
| InternalError.

(** Modelled from the spec: the HTTP status of each status class, as
    net/http numbers them. *)
Definition http_Status (c : StatusClass) : Z :=
  match c with
  | ResourceExhausted => 507
  | NotFound => 404
  | BadRequest => 400
  | Conflict => 409
  | Forbidden => 403
  | InternalError => 500
  end.

(** Modelled from the spec: the status class of the row each API error
    code stands for. *)
Definition statusClassOf (c : APIErrorCode) : StatusClass :=
  match c with
  | ErrRootPathFull => ResourceExhausted
  | ErrNoSuchBucket => NotFound
  | ErrInvalidBucketName => BadRequest
  | ErrBadDigest => BadRequest
  | ErrIncompleteBody => BadRequest
  | ErrObjectExistsAsPrefix => Conflict
  | ErrNoSuchKey => NotFound
  | ErrInternalError => InternalError
  end.

(** Modelled from the spec: the table itself, for given descriptions. *)
Definition specAPIErrors (describe : APIErrorCode -> string) : APIErrors :=
  {| getAPIError c :=
       {| Code := describe c;
          Description := describe c;
          HTTPStatusCode := http_Status (statusClassOf c) |} |}.

(** The specification's [Translate], row by row: the status class of a
    backend condition. *)
Definition spec_Translate (err : goError) : StatusClass :=
  match err with
  | errInvalidToken => Forbidden
  | fs_RootPathFull _ => ResourceExhausted
  | fs_BucketNotFound _ => NotFound
  | fs_BucketNameInvalid _ => BadRequest
  | fs_BadDigest _ => BadRequest
  | fs_IncompleteBody _ => BadRequest
  | fs_ObjectExistsAsPrefix _ => Conflict
  | fs_ObjectNotFound _ => NotFound
  | fs_ObjectNameInvalid _ => NotFound
  | otherError _ _ => InternalError
  end.

(** The backend error variants the translator declares a case for. *)
Definition declaredVariant (err : goError) : bool :=
  match err with
  | fs_RootPathFull _ | fs_BucketNotFound _ | fs_BucketNameInvalid _
  | fs_BadDigest _ | fs_IncompleteBody _ | fs_ObjectExistsAsPrefix _
  | fs_ObjectNotFound _ | fs_ObjectNameInvalid _ => true
  | errInvalidToken | otherError _ _ => false
  end.

(** ** A scripted backend

    A small in-memory instance of the collaborators, on which the
    statements below are exercised: buckets and listing pages are given
    up front, a listing page is found by its marker, and a token is the
    algorithm name followed by the secret it was issued under. *)

Module Scripted.

Record State : Type := mkState {
  buckets : list fs.BucketInfo;
  pages : list (string * fs.ListObjectsResult);
  saved : option credential
}.

Fixpoint page (marker : string) (ps : list (string * fs.ListObjectsResult))
    : option fs.ListObjectsResult :=
  match ps with
  | [] => None
  | (m, p) :: ps' => if String.eqb marker m then Some p else page marker ps'
  end.

Definition emptyPage : fs.ListObjectsResult :=
  fs.mkListObjectsResult false EmptyString [] [].

Definition basename (p : string) : string :=
  if prefix "/" p then substring 1 (String.length p - 1)%nat p else p.

#[global] Instance platform : Platform State := {|
  os_Hostname s := (("console", None), s);
  runtime_ReadMemStats s := (mkMemStats 1 2 3 4, s);
  runtime_GOOS := "linux";
  runtime_GOARCH := "amd64";
  runtime_Version := "go1.6";
  runtime_NumCPU := 4;
  humanize_Bytes n := "some bytes";
  strconv_Itoa n := "4";
  path_Base := basename;
  filepath_Base := basename;
  Error e :=
    match e with
    | errInvalidToken => "Invalid token"
    | otherError _ m => m
    | _ => "backend failure"
    end;
  probe_String e := probeTrace e;
  minioVersion := "2016-04-17";
  miniobrowser_UIVersion := "ui-1";
  reservedBucket := "/minio"
|}.

#[global] Instance filesystem : Filesystem State := {|
  GetRootPath s := ("/export", s);
  disk_GetInfo p s := ((disk.mkInfo 100 40 "ext4", None), s);
  fs_MakeBucket b s :=
    (None, {| buckets := buckets s ++ [fs.mkBucketInfo b (TimeAt 7)];
              pages := pages s; saved := saved s |});
  fs_ListBuckets s := ((buckets s, None), s);
  fs_ListObjects b p marker d n s :=
    match page marker (pages s) with
    | Some lo => ((lo, None), s)
    | None => ((emptyPage, Some (mkProbe (fs_BucketNotFound b) "ListObjects")), s)
    end;
  fs_DeleteObject b o s := (Some (mkProbe (fs_ObjectNotFound o) "DeleteObject"), s);
  fs_CreateObject b o n body s := (None, s);
  fs_GetObject w b o i j s := (((w ++ [Write "content"])%list, None), s)
|}.

#[global] Instance auth : Auth State := {|
  jwt_requestToken r :=
    let ah := lookup "Authorization" (Header r) in
    if prefix "Bearer " ah
    then Some (substring 7 (String.length ah - 7)%nat ah)
    else None;
  jwt_decode s :=
    if prefix "HS256." s
    then Some (mkToken s (SigningMethodHMAC "HS256") "HS256" false)
    else if prefix "RS256." s
    then Some (mkToken s (SigningMethodRSA "RS256") "RS256" false)
    else if prefix "none." s
    then Some (mkToken s SigningMethodNone "none" false)
    else None;
  jwt_verify s token key :=
    match Method token with
    | SigningMethodHMAC _ => String.eqb (Raw token) ("HS256." ++ key)
    | _ => true
    end;
  jwt_Authenticate cred user pass :=
    String.eqb user (AccessKeyID cred) && String.eqb pass (SecretAccessKey cred);
  jwt_GenerateToken cred user s := (("HS256." ++ SecretAccessKey cred, None), s);
  mustGenAccessKeys s := (mkCredential "GENERATEDKEY" "generatedsecret", s);
  config_Save cred s :=
    (None, {| buckets := buckets s; pages := pages s; saved := Some cred |})
|}.

#[global] Instance apiErrors : APIErrors :=
  specAPIErrors (fun c =>
    match c with
    | ErrNoSuchKey => "The specified key does not exist."
    | ErrInternalError => "We encountered an internal error, please try again."
    | _ => "The request failed."
    end).

Definition page1 : fs.ListObjectsResult :=
  fs.mkListObjectsResult true "m1"
    [fs.mkObjectInfo "a.txt" (TimeAt 11) "text/plain" 3;
     fs.mkObjectInfo "b.bin" (TimeAt 12) "application/octet-stream" 5]
    ["docs/"].

Definition page2 : fs.ListObjectsResult :=
  fs.mkListObjectsResult false EmptyString
    [fs.mkObjectInfo "z.txt" (TimeAt 13) "text/plain" 8]
    ["img/"; "tmp/"].

Definition state0 : State :=
  {| buckets := [fs.mkBucketInfo "photos" (TimeAt 1);
                 fs.mkBucketInfo "minio" (TimeAt 2);
                 fs.mkBucketInfo "logs" (TimeAt 3)];
     pages := [(EmptyString, page1); ("m1", page2)];
     saved := None |}.

Definition world0 : World State :=
  {| sys := state0;
     serverConfig := mkCredential "admin" "secret123";
     calls := [] |}.

Definition request (authorization : string) (query : list (string * string))
    : Request :=
  {| Header := [("Authorization", authorization)];
     Form := [];
     URL_Query := query;
     Vars := [("bucket", "photos"); ("object", "2016/a.txt")];
     Body := "payload" |}.

(** A request carrying a token issued under the active secret, one with no
    token at all, and one with a token declaring an asymmetric method. *)
Definition goodRequest : Request := request "Bearer HS256.secret123" [].
Definition anonRequest : Request := request EmptyString [].
Definition rsaRequest : Request :=
  request "Bearer RS256.secret123" [("token", "RS256.secret123")].

End Scripted.

(** ** A failing backend

    A second instance of the collaborators, on which every fallible
    operation fails: the host name lookup, the disk query, the bucket and
    object operations, the second listing request, token issuance and the
    saving of the configuration.  Its state counts the operations run. *)

Module Faulty.

Record State : Type := mkState { operations : nat }.

Definition bump (s : State) : State := {| operations := S (operations s) |}.

Definition fail (cause : goError) (place : string) : option probeError :=
  Some (mkProbe cause place).

#[global] Instance platform : Platform State := {|
  os_Hostname s :=
    (("stale-name", Some (otherError "*os.SyscallError" "hostname unavailable")),
     bump s);
  runtime_ReadMemStats s := (mkMemStats 1 2 3 4, bump s);
  runtime_GOOS := "linux";
  runtime_GOARCH := "amd64";
  runtime_Version := "go1.6";
  runtime_NumCPU := 4;
  humanize_Bytes n := "some bytes";
  strconv_Itoa n := "4";
  path_Base := Scripted.basename;
  filepath_Base := Scripted.basename;
  Error e :=
    match e with
    | errInvalidToken => "Invalid token"
    | otherError _ m => m
    | _ => "backend failure"
    end;
  probe_String e := probeTrace e;
  minioVersion := "2016-04-17";
  miniobrowser_UIVersion := "ui-1";
  reservedBucket := "/minio"
|}.

#[global] Instance filesystem : Filesystem State := {|
  GetRootPath s := ("/export", bump s);
  disk_GetInfo p s :=
    ((disk.mkInfo 9 9 "stale",
      Some (otherError "syscall.Errno" "no such file or directory")), bump s);
  fs_MakeBucket b s := (fail (fs_BucketNameInvalid b) "MakeBucket", bump s);
  fs_ListBuckets s :=
    (([fs.mkBucketInfo "stale" (TimeAt 5)],
      fail (otherError "*os.PathError" "disk unreadable") "ListBuckets"),
     bump s);
  fs_ListObjects b p marker d n s :=
    if String.eqb marker EmptyString
    then ((Scripted.page1, None), bump s)
    else ((Scripted.page2, fail (fs_BucketNotFound b) "ListObjects"), bump s);
  fs_DeleteObject b o s := (fail (fs_ObjectNotFound o) "DeleteObject", bump s);
  fs_CreateObject b o n body s :=
    (fail (fs_RootPathFull "/export") "CreateObject", bump s);
  fs_GetObject w b o i j s :=
    (((w ++ [Write "partial"])%list, fail (fs_ObjectNotFound o) "GetObject"),
     bump s)
|}.

#[global] Instance auth : Auth State := {|
  jwt_requestToken := @jwt_requestToken Scripted.State Scripted.auth;
  jwt_decode := @jwt_decode Scripted.State Scripted.auth;
  jwt_verify s token key :=
    match Method token with
    | SigningMethodHMAC _ => String.eqb (Raw token) ("HS256." ++ key)
    | _ => true
    end;
  jwt_Authenticate := @jwt_Authenticate Scripted.State Scripted.auth;
  jwt_GenerateToken cred user s :=
    (("half-made",
      fail (otherError "*errors.errorString" "signing failed") "GenerateToken"),
     bump s);
  mustGenAccessKeys s := (mkCredential "GENERATEDKEY" "generatedsecret", bump s);
  config_Save cred s :=
    (fail (otherError "*os.PathError" "read-only file system") "Save", bump s)
|}.

Definition world0 : World State :=
  {| sys := {| operations := 0 |};
     serverConfig := mkCredential "admin" "secret123";
     calls := [] |}.

End Faulty.

(** * Properties *)

Section Properties.

Context {Sys : Type}.
Context {platform : Platform Sys} {filesystem : Filesystem Sys}
        {auth : Auth Sys}.

Ltac run_handler :=
  unfold serverConfig_GetCredential, serverConfig_SetCredential,
         serverConfig_Save;
  unfold bind, gets, ret, call, initJWT; simpl.

(** ** The authorization gate *)

Lemma Unauthorized_message : Message Unauthorized = "Unauthorized request".
Proof. reflexivity. Qed.

(** C1. When the token check fails, each of ServerInfo, DiskInfo,
    MakeBucket, ListBuckets, ListObjects, RemoveObject, GenerateAuth,
    SetAuth and GetAuth returns the error "Unauthorized request" and leaves
    both the reply and the world as they were: the log of collaborator
    calls has not grown and the credential is untouched, so nothing
    happened before or after the check.  ListObjects answers so whatever
    the number of loop turns allowed, zero included. *)
Theorem unauthorized_request_makes_no_call :
  forall (st : World Sys) (r : Request),
    isJWTReqAuthenticated st r = false ->
    Message Unauthorized = "Unauthorized request" /\
    (forall args reply,
        ServerInfo r args reply st = ((reply, Some Unauthorized), st)) /\
    (forall args reply,
        DiskInfo r args reply st = ((reply, Some Unauthorized), st)) /\
    (forall args reply,
        MakeBucket r args reply st = ((reply, Some Unauthorized), st)) /\
    (forall args reply,
        ListBuckets r args reply st = ((reply, Some Unauthorized), st)) /\
    (forall fuel args reply,
        ListObjects fuel r args reply st
          = Some ((reply, Some Unauthorized), st)) /\
    (forall args reply,
        RemoveObject r args reply st = ((reply, Some Unauthorized), st)) /\
    (forall args reply,
        GenerateAuth r args reply st = ((reply, Some Unauthorized), st)) /\
    (forall args reply,
        SetAuth r args reply st = ((reply, Some Unauthorized), st)) /\
    (forall args reply,
        GetAuth r args reply st = ((reply, Some Unauthorized), st)).
Proof.
  intros st r Hfail.
  repeat split; intros;
    unfold ServerInfo, DiskInfo, MakeBucket, ListBuckets, ListObjects,
           RemoveObject, GenerateAuth, SetAuth, GetAuth;
    run_handler; rewrite Hfail; reflexivity.
Qed.

(** ** SetAuth *)

(** C4. In an authenticated SetAuth, an empty access key is answered with
    "Empty access key not allowed", an empty secret key (the access key
    being non-empty) with "Empty secret key not allowed"; the two messages
    differ, and in both cases the world is returned as it was: the stored
    credential is unchanged and no call (in particular no SetCredential
    and no Save) was logged. *)
Theorem SetAuth_rejects_empty_keys :
  forall (st : World Sys) (r : Request) (args : SetAuthArgs.t)
         (reply : SetAuthReply.t),
    isJWTReqAuthenticated st r = true ->
    (SetAuthArgs.AccessKey args = "" ->
       SetAuth r args reply st
         = ((reply, Some (json2_Error "Empty access key not allowed")), st)) /\
    (SetAuthArgs.AccessKey args <> "" ->
     SetAuthArgs.SecretKey args = "" ->
       SetAuth r args reply st
         = ((reply, Some (json2_Error "Empty secret key not allowed")), st)) /\
    json2_Error "Empty access key not allowed"
      <> json2_Error "Empty secret key not allowed".
Proof.
  intros st r args reply Hauth.
  split; [| split].
  - intros Ha. unfold SetAuth. run_handler.
    rewrite Hauth, Ha. reflexivity.
  - intros Ha Hs. unfold SetAuth. run_handler.
    rewrite Hauth, Hs.
    apply String.eqb_neq in Ha. rewrite Ha. reflexivity.
  - discriminate.
Qed.

(** ** The error writer *)

(** C5. Whatever the table of API errors, an invalid object name and an
    absent object are written identically: both responses are the status
    and the description of the no-such-key entry. *)
Theorem invalid_object_name_written_as_not_found :
  forall (apiErrors : APIErrors) (w : ResponseWriter) (d d' : string),
    writeWebErrorResponse w (fs_ObjectNameInvalid d)
      = writeWebErrorResponse w (fs_ObjectNotFound d') /\
    writeWebErrorResponse w (fs_ObjectNameInvalid d)
      = (w ++ [WriteHeader (HTTPStatusCode (getAPIError ErrNoSuchKey));
               Write (Description (getAPIError ErrNoSuchKey))])%list.
Proof.
  intros. split; reflexivity.
Qed.

(** C3. The error writer answers every error value with exactly one status
    followed by one description.  The invalid-token sentinel is answered
    with 403 and its own message, whatever the table; each of the eight
    backend variants with the entry of its own API error code, whatever
    the variant carries; every other error value with the internal-error
    entry.  Under the table of the specification a declared variant is
    written with the status of its row, which is not the internal-error
    status. *)
Theorem writeWebErrorResponse_total :
  forall (apiErrors : APIErrors) (describe : APIErrorCode -> string)
         (w : ResponseWriter) (err : goError),
    (exists status body,
        writeWebErrorResponse w err
          = (w ++ [WriteHeader status; Write body])%list) /\
    writeWebErrorResponse w errInvalidToken
      = (w ++ [WriteHeader 403; Write (Error errInvalidToken)])%list /\
    (forall d, writeWebErrorResponse w (fs_RootPathFull d)
               = writeAPIError w (getAPIError ErrRootPathFull)) /\
    (forall d, writeWebErrorResponse w (fs_BucketNotFound d)
               = writeAPIError w (getAPIError ErrNoSuchBucket)) /\
    (forall d, writeWebErrorResponse w (fs_BucketNameInvalid d)
               = writeAPIError w (getAPIError ErrInvalidBucketName)) /\
    (forall d, writeWebErrorResponse w (fs_BadDigest d)
               = writeAPIError w (getAPIError ErrBadDigest)) /\
    (forall d, writeWebErrorResponse w (fs_IncompleteBody d)
               = writeAPIError w (getAPIError ErrIncompleteBody)) /\
    (forall d, writeWebErrorResponse w (fs_ObjectExistsAsPrefix d)
               = writeAPIError w (getAPIError ErrObjectExistsAsPrefix)) /\
    (forall d, writeWebErrorResponse w (fs_ObjectNotFound d)
               = writeAPIError w (getAPIError ErrNoSuchKey)) /\
    (forall d, writeWebErrorResponse w (fs_ObjectNameInvalid d)
               = writeAPIError w (getAPIError ErrNoSuchKey)) /\
    (forall t m, writeWebErrorResponse w (otherError t m)
                 = writeAPIError w (getAPIError ErrInternalError)) /\
    (declaredVariant err = true ->
       (exists body,
          @writeWebErrorResponse Sys platform (specAPIErrors describe) w err
            = (w ++ [WriteHeader (http_Status (spec_Translate err));
                     Write body])%list) /\
       http_Status (spec_Translate err) <> http_Status InternalError).
Proof.
  intros tbl describe w err.
  split.
  { destruct err; unfold writeWebErrorResponse, writeAPIError; simpl;
      eexists; eexists; reflexivity. }
  repeat (split; [reflexivity || (intros; reflexivity) |]).
  intros Hdecl.
  destruct err; simpl in Hdecl; try discriminate;
    (split; [eexists; reflexivity | simpl; lia]).
Qed.

(** ** The token check *)

(** C8. A token string that does not declare a signing method of the
    HMAC family (its header names another method, or one the library does
    not know) is refused on both paths, whatever the signature check of
    its own method would say: the header check used by the RPC methods and
    by Upload answers false, Upload then writes the fixed 403 response
    without creating an object, and Download, which takes the token from
    the query, writes the fixed 403 response without reading an object. *)
Theorem non_HMAC_token_is_refused :
  forall (apiErrors : APIErrors) (st : World Sys) (r : Request)
         (tokenString : string),
    declaresHMAC tokenString = false ->
    (jwt_requestToken r = Some tokenString ->
       isJWTReqAuthenticated st r = false /\
       forall w, Upload w r st
                 = ((w ++ [WriteHeader 403; Write (Error errInvalidToken)])%list,
                    st)) /\
    (lookup "token" (URL_Query r) = tokenString ->
       forall w, Download w r st
                 = ((w ++ [WriteHeader 403; Write (Error errInvalidToken)])%list,
                    st)).
Proof.
  intros tbl st r s Hm. unfold declaresHMAC in Hm.
  split.
  - intros Hreq.
    assert (Hno : isJWTReqAuthenticated st r = false).
    { unfold isJWTReqAuthenticated, ParseFromRequest, Parse.
      rewrite Hreq.
      destruct (jwt_decode s) as [token |]; [rewrite Hm |]; reflexivity. }
    split; [exact Hno |].
    intros w. unfold Upload. run_handler. rewrite Hno. reflexivity.
  - intros Hq w. unfold Download. run_handler.
    unfold Parse. rewrite Hq.
    destruct (jwt_decode s) as [token |]; [rewrite Hm |]; reflexivity.
Qed.

(** ** ListBuckets *)

Lemma ListBuckets_fold :
  forall (buckets : list fs.BucketInfo) (reply : ListBucketsRep.t),
    ListBucketsRep.Buckets (fold_left ListBuckets_step buckets reply)
      = (ListBucketsRep.Buckets reply
         ++ map bucketEntry (filter visibleBucket buckets))%list.
Proof.
  induction buckets as [| b bs IH]; intros reply; simpl.
  - now rewrite app_nil_r.
  - rewrite IH. unfold ListBuckets_step, visibleBucket.
    destruct (negb (fs.Name b =? path_Base reservedBucket)%string); simpl.
    + now rewrite <- app_assoc.
    + reflexivity.
Qed.

(** C6. An authenticated ListBuckets whose backend listing succeeds
    answers, on the fresh reply the RPC server hands it, with the backend's
    buckets in order minus those named as the base of the reserved bucket
    path: no entry of the reply bears that name, and every other backend
    bucket is there with its name and creation date. *)
Theorem ListBuckets_hides_reserved_bucket :
  forall (st : World Sys) (r : Request) (args : GenericArgs)
         (buckets : list fs.BucketInfo) (s' : Sys),
    isJWTReqAuthenticated st r = true ->
    fs_ListBuckets (sys st) = ((buckets, None), s') ->
    exists reply st',
      ListBuckets r args ListBucketsRep.zero st = ((reply, None), st') /\
      ListBucketsRep.Buckets reply
        = map bucketEntry (filter visibleBucket buckets) /\
      (forall b, In b (ListBucketsRep.Buckets reply) ->
                 BucketInfo.Name b <> path_Base reservedBucket) /\
      (forall bucket, In bucket buckets ->
                      fs.Name bucket <> path_Base reservedBucket ->
                      In {| BucketInfo.Name := fs.Name bucket;
                            BucketInfo.CreationDate := fs.Created bucket |}
                         (ListBucketsRep.Buckets reply)).
Proof.
  intros st r args buckets s' Hauth Hls.
  unfold ListBuckets. run_handler. rewrite Hauth. simpl. rewrite Hls. simpl.
  eexists; eexists. split; [reflexivity |]. simpl.
  rewrite ListBuckets_fold. simpl.
  split; [reflexivity |]. split.
  - intros b Hin. apply in_map_iff in Hin. destruct Hin as [x [<- Hx]].
    apply filter_In in Hx. destruct Hx as [_ Hv].
    unfold visibleBucket in Hv. apply negb_true_iff in Hv.
    apply String.eqb_neq in Hv. exact Hv.
  - intros bucket Hin Hne.
    change (In (bucketEntry bucket)
               (map bucketEntry (filter visibleBucket buckets))).
    apply in_map. apply filter_In. split; [exact Hin |].
    unfold visibleBucket. apply negb_true_iff. now apply String.eqb_neq.
Qed.

(** ** SetAuth followed by GetAuth *)

(** C7. When SetAuth returns without error, both keys were non-empty and
    the next GetAuth that passes the token check answers with exactly the
    access key and the secret key that were set. *)
Theorem SetAuth_then_GetAuth :
  forall (st st' : World Sys) (r : Request) (args : SetAuthArgs.t)
         (reply reply' : SetAuthReply.t),
    SetAuth r args reply st = ((reply', None), st') ->
    SetAuthArgs.AccessKey args <> "" /\
    SetAuthArgs.SecretKey args <> "" /\
    forall (r2 : Request) (args2 : GenericArgs) (reply2 : GetAuthReply.t),
      isJWTReqAuthenticated st' r2 = true ->
      exists st'',
        GetAuth r2 args2 reply2 st'
          = (({| GetAuthReply.AccessKey := SetAuthArgs.AccessKey args;
                 GetAuthReply.SecretKey := SetAuthArgs.SecretKey args;
                 GetAuthReply.UIVersion := miniobrowser_UIVersion |}, None),
             st'').
Proof.
  intros st st' r args reply reply' Hset.
  unfold SetAuth in Hset. revert Hset. run_handler.
  destruct (isJWTReqAuthenticated st r); simpl; [| discriminate].
  destruct (SetAuthArgs.AccessKey args =? "")%string eqn:Ha; [discriminate |].
  destruct (SetAuthArgs.SecretKey args =? "")%string eqn:Hs; [discriminate |].
  match goal with
  | |- context [config_Save ?c ?s] =>
      destruct (config_Save c s) as [[e |] s1]; simpl; [discriminate |]
  end.
  match goal with
  | |- context [jwt_Authenticate ?c ?a ?b] =>
      destruct (jwt_Authenticate c a b); simpl; [| discriminate]
  end.
  match goal with
  | |- context [jwt_GenerateToken ?c ?a ?s] =>
      destruct (jwt_GenerateToken c a s) as [[tok [e |]] s2]; [discriminate |]
  end.
  intros Hset. injection Hset as _ <-.
  apply String.eqb_neq in Ha. apply String.eqb_neq in Hs.
  split; [exact Ha |]. split; [exact Hs |].
  intros r2 args2 reply2 Hauth2.
  unfold GetAuth. run_handler. rewrite Hauth2. simpl.
  eexists. reflexivity.
Qed.

(** ** ListObjects *)

Lemma ListObjects_object_fold :
  forall (objs : list fs.ObjectInfo) (reply : ListObjectsRep.t),
    fold_left ListObjects_object objs reply
      = {| ListObjectsRep.Objects :=
             (ListObjectsRep.Objects reply ++ map objectEntry objs)%list;
           ListObjectsRep.UIVersion := ListObjectsRep.UIVersion reply |}.
Proof.
  induction objs as [| o os IH]; intros [objects ui]; simpl.
  - now rewrite app_nil_r.
  - rewrite IH. simpl. now rewrite <- app_assoc.
Qed.

Lemma ListObjects_prefix_fold :
  forall (prefixes : list string) (reply : ListObjectsRep.t),
    fold_left ListObjects_prefix prefixes reply
      = {| ListObjectsRep.Objects :=
             (ListObjectsRep.Objects reply ++ map prefixEntry prefixes)%list;
           ListObjectsRep.UIVersion := ListObjectsRep.UIVersion reply |}.
Proof.
  induction prefixes as [| p ps IH]; intros [objects ui]; simpl.
  - now rewrite app_nil_r.
  - rewrite IH. simpl. now rewrite <- app_assoc.
Qed.

(** One page appended to the reply. *)
Lemma ListObjects_page :
  forall (lo : fs.ListObjectsResult) (reply : ListObjectsRep.t),
    fold_left ListObjects_prefix (fs.Prefixes lo)
      (fold_left ListObjects_object (fs.Objects lo) reply)
      = {| ListObjectsRep.Objects :=
             (ListObjectsRep.Objects reply ++ pageEntries lo)%list;
           ListObjectsRep.UIVersion := ListObjectsRep.UIVersion reply |}.
Proof.
  intros lo reply.
  rewrite ListObjects_object_fold, ListObjects_prefix_fold. simpl.
  unfold pageEntries. now rewrite <- app_assoc.
Qed.

(** One turn of the loop on a page the backend returns without error: a
    page that is not truncated ends the loop, a truncated page sends it
    round again with the page's continuation marker. *)
Lemma ListObjects_loop_turn :
  forall (fuel : nat) (args : ListObjectsArgs.t) (marker : string)
         (reply : ListObjectsRep.t) (st : World Sys)
         (lo : fs.ListObjectsResult) (s1 : Sys),
    fs_ListObjects (ListObjectsArgs.BucketName args)
                   (ListObjectsArgs.Prefix args) marker "/" 1000 (sys st)
      = ((lo, None), s1) ->
    let reply1 :=
      {| ListObjectsRep.Objects :=
           (ListObjectsRep.Objects reply ++ pageEntries lo)%list;
         ListObjectsRep.UIVersion := ListObjectsRep.UIVersion reply |} in
    let st1 :=
      {| sys := s1; serverConfig := serverConfig st;
         calls := (calls st ++ [listCall args marker])%list |} in
    ListObjects_loop (S fuel) args marker reply st
      = if fs.IsTruncated lo
        then ListObjects_loop fuel args (fs.NextMarker lo) reply1 st1
        else Some ((reply1, None), st1).
Proof.
  intros fuel args marker reply st lo s1 Hcall. simpl.
  unfold call. rewrite Hcall. simpl. rewrite ListObjects_page.
  destruct (fs.IsTruncated lo); reflexivity.
Qed.

(** The loop over a listing that ends: with at least as many turns as
    there are pages it leaves by [break], having appended every page in
    order and made one request per page, each with the marker of the page
    before. *)
Lemma ListObjects_loop_pages :
  forall (args : ListObjectsArgs.t) (marker : string) (s s' : Sys)
         (pages : list fs.ListObjectsResult),
    Paged args marker s pages s' ->
    forall (fuel : nat) (reply : ListObjectsRep.t) (cfg : credential)
           (cs : list Call),
      (length pages <= fuel)%nat ->
      ListObjects_loop fuel args marker reply
        {| sys := s; serverConfig := cfg; calls := cs |}
      = Some (({| ListObjectsRep.Objects :=
                    (ListObjectsRep.Objects reply
                     ++ flat_map pageEntries pages)%list;
                  ListObjectsRep.UIVersion := ListObjectsRep.UIVersion reply |},
               None),
              {| sys := s'; serverConfig := cfg;
                 calls := (cs ++ map (listCall args)
                                     (requestMarkers marker pages))%list |}).
Proof.
  intros args marker s s' pages HP.
  induction HP as [marker s lo s' Hcall Hlast
                  | marker s lo s1 los s' Hcall Hmore HP IH];
    intros fuel reply cfg cs Hfuel;
    (destruct fuel as [| fuel]; [simpl in Hfuel; lia |]);
    simpl; unfold call; simpl; rewrite Hcall; simpl;
    rewrite ListObjects_page.
  - rewrite Hlast. simpl. now rewrite app_nil_r.
  - rewrite Hmore. simpl.
    rewrite IH by (simpl in Hfuel; lia). simpl.
    now rewrite <- !app_assoc.
Qed.

(** With fewer turns than pages the loop is still running. *)
Lemma ListObjects_loop_running :
  forall (args : ListObjectsArgs.t) (marker : string) (s s' : Sys)
         (pages : list fs.ListObjectsResult),
    Paged args marker s pages s' ->
    forall (fuel : nat) (reply : ListObjectsRep.t) (cfg : credential)
           (cs : list Call),
      (fuel < length pages)%nat ->
      ListObjects_loop fuel args marker reply
        {| sys := s; serverConfig := cfg; calls := cs |} = None.
Proof.
  intros args marker s s' pages HP.
  induction HP as [marker s lo s' Hcall Hlast
                  | marker s lo s1 los s' Hcall Hmore HP IH];
    intros fuel reply cfg cs Hfuel;
    (destruct fuel as [| fuel]; [reflexivity |]).
  - simpl in Hfuel. lia.
  - simpl. unfold call. simpl. rewrite Hcall. simpl. rewrite Hmore. simpl.
    apply IH. simpl in Hfuel. lia.
Qed.

(** Every page of a listing but the last is truncated; the last is not. *)
Lemma Paged_truncation :
  forall (args : ListObjectsArgs.t) (marker : string) (s s' : Sys)
         (pages : list fs.ListObjectsResult),
    Paged args marker s pages s' ->
    exists front lo,
      pages = (front ++ [lo])%list /\
      Forall (fun p => fs.IsTruncated p = true) front /\
      fs.IsTruncated lo = false.
Proof.
  intros args marker s s' pages HP.
  induction HP as [marker s lo s' Hcall Hlast
                  | marker s lo s1 los s' Hcall Hmore HP IH].
  - exists [], lo. repeat split; auto.
  - destruct IH as [front [l [-> [Hf Hl]]]].
    exists (lo :: front), l. repeat split; auto.
Qed.

(** A backend failure leaves the loop by [return], with the failure's
    message. *)
Lemma ListObjects_backend_failure :
  forall (st : World Sys) (r : Request) (args : ListObjectsArgs.t)
         (reply : ListObjectsRep.t) (lo : fs.ListObjectsResult)
         (err : probeError) (s' : Sys) (fuel : nat),
    isJWTReqAuthenticated st r = true ->
    fs_ListObjects (ListObjectsArgs.BucketName args)
                   (ListObjectsArgs.Prefix args) "" "/" 1000 (sys st)
      = ((lo, Some err), s') ->
    ListObjects (S fuel) r args reply st
      = Some ((reply, Some (json2_Error (Error (Cause err)))),
              {| sys := s'; serverConfig := serverConfig st;
                 calls := (calls st ++ [listCall args ""])%list |}).
Proof.
  intros st r args reply lo err s' fuel Hauth Hcall.
  unfold ListObjects. rewrite Hauth. simpl. unfold call. simpl.
  rewrite Hcall. reflexivity.
Qed.

(** C2. In an authenticated ListObjects over a listing that ends, the
    reply, started fresh, holds the backend's pages one after the other in
    the order pagination returned them; within a page, the entries of the
    page's objects in the backend's order, followed by the entries of its
    common prefixes in the backend's order. *)
Theorem ListObjects_concatenates_pages :
  forall (st : World Sys) (r : Request) (args : ListObjectsArgs.t)
         (pages : list fs.ListObjectsResult) (s' : Sys) (fuel : nat),
    isJWTReqAuthenticated st r = true ->
    Paged args "" (sys st) pages s' ->
    (length pages <= fuel)%nat ->
    exists st',
      ListObjects fuel r args ListObjectsRep.zero st
        = Some (({| ListObjectsRep.Objects :=
                      flat_map (fun lo =>
                                  map objectEntry (fs.Objects lo)
                                  ++ map prefixEntry (fs.Prefixes lo))%list
                               pages;
                    ListObjectsRep.UIVersion := miniobrowser_UIVersion |},
                 None), st').
Proof.
  intros [s cfg cs] r args pages s' fuel Hauth HP Hfuel.
  unfold ListObjects. rewrite Hauth. simpl. simpl in HP.
  rewrite (ListObjects_loop_pages HP) by exact Hfuel. simpl.
  eexists. reflexivity.
Qed.

(** C10. In an authenticated ListObjects over a listing that ends after
    finitely many pages: the loop makes exactly one request per page, the
    first with the empty marker and each later one with the continuation
    marker of the page before; every page before the last was reported
    truncated and the last was not; any number of turns that reaches the
    number of pages lets the call return without error, and with fewer
    turns the loop has not yet been left. *)
Theorem ListObjects_pagination_terminates :
  forall (st : World Sys) (r : Request) (args : ListObjectsArgs.t)
         (pages : list fs.ListObjectsResult) (s' : Sys),
    isJWTReqAuthenticated st r = true ->
    Paged args "" (sys st) pages s' ->
    (exists front lo,
        pages = (front ++ [lo])%list /\
        Forall (fun p => fs.IsTruncated p = true) front /\
        fs.IsTruncated lo = false) /\
    (forall fuel reply, (length pages <= fuel)%nat ->
       exists reply',
         ListObjects fuel r args reply st
           = Some ((reply', None),
                   {| sys := s'; serverConfig := serverConfig st;
                      calls := (calls st
                                ++ map (fun marker =>
                                          call_ListObjects
                                            (ListObjectsArgs.BucketName args)
                                            (ListObjectsArgs.Prefix args)
                                            marker "/" 1000)
                                       (requestMarkers "" pages))%list |})) /\
    (forall fuel reply, (fuel < length pages)%nat ->
       ListObjects fuel r args reply st = None).
Proof.
  intros [s cfg cs] r args pages s' Hauth HP. simpl in HP.
  split; [exact (Paged_truncation HP) |]. split.
  - intros fuel reply Hfuel.
    unfold ListObjects. rewrite Hauth. simpl.
    rewrite (ListObjects_loop_pages HP) by exact Hfuel. simpl.
    eexists. reflexivity.
  - intros fuel reply Hfuel.
    unfold ListObjects. rewrite Hauth. simpl.
    now rewrite (ListObjects_loop_running HP).
Qed.

(** The entry written for a backend object carries the object's name,
    modification time and size, and an empty content type whatever the
    backend reports; the entry written for a common prefix carries the
    prefix as its key and zero values elsewhere. *)
Lemma ListObjects_entries :
  forall (reply : ListObjectsRep.t) (lo : fs.ListObjectsResult)
         (e : ObjectInfo.t),
    In e (ListObjectsRep.Objects
            (fold_left ListObjects_prefix (fs.Prefixes lo)
               (fold_left ListObjects_object (fs.Objects lo) reply))) ->
    In e (ListObjectsRep.Objects reply) \/
    (exists obj, In obj (fs.Objects lo) /\
                 ObjectInfo.Key e = fs.oName obj /\
                 ObjectInfo.LastModified e = fs.ModifiedTime obj /\
                 ObjectInfo.Size e = fs.Size obj /\
                 ObjectInfo.ContentType e = "") \/
    (exists prefix, In prefix (fs.Prefixes lo) /\
                    e = {| ObjectInfo.Key := prefix;
                           ObjectInfo.LastModified := Time_zero;
                           ObjectInfo.Size := 0;
                           ObjectInfo.ContentType := "" |}).
Proof.
  intros reply lo e. rewrite ListObjects_page. simpl.
  unfold pageEntries. rewrite !in_app_iff, !in_map_iff.
  intros [H | [[obj [<- Hin]] | [p [<- Hin]]]].
  - now left.
  - right; left. exists obj. repeat split; auto.
  - right; right. exists p. split; auto.
Qed.

End Properties.

(** * The statements on the scripted backend *)

(** A request without a token: MakeBucket and ListObjects answer
    unauthorized and the world stays as it was. *)
Lemma unauthorized_request_makes_no_call_witness :
  isJWTReqAuthenticated Scripted.world0 Scripted.anonRequest = false /\
  MakeBucket Scripted.anonRequest (MakeBucketArgs.mk "photos")
             GenericRep.zero Scripted.world0
    = ((GenericRep.zero, Some Unauthorized), Scripted.world0) /\
  ListObjects 0 Scripted.anonRequest (ListObjectsArgs.mk "photos" "2016/")
              ListObjectsRep.zero Scripted.world0
    = Some ((ListObjectsRep.zero, Some Unauthorized), Scripted.world0).
Proof.
  split; [reflexivity |].
  pose proof (unauthorized_request_makes_no_call
                Scripted.world0 Scripted.anonRequest) as H.
  specialize (H eq_refl).
  destruct H as (_ & _ & _ & Hmk & _ & Hlo & _).
  split; [apply Hmk | apply Hlo].
Defined.

(** SetAuth with either key empty, on a request that passes the check. *)
Lemma SetAuth_rejects_empty_keys_witness :
  SetAuth Scripted.goodRequest (SetAuthArgs.mk "" "newsecret")
          SetAuthReply.zero Scripted.world0
    = ((SetAuthReply.zero, Some (json2_Error "Empty access key not allowed")),
       Scripted.world0) /\
  SetAuth Scripted.goodRequest (SetAuthArgs.mk "newkey" "")
          SetAuthReply.zero Scripted.world0
    = ((SetAuthReply.zero, Some (json2_Error "Empty secret key not allowed")),
       Scripted.world0).
Proof.
  split.
  - pose proof (SetAuth_rejects_empty_keys
                  Scripted.world0 Scripted.goodRequest
                  (SetAuthArgs.mk "" "newsecret") SetAuthReply.zero) as H.
    specialize (H eq_refl). destruct H as (Ha & _ & _).
    apply Ha. reflexivity.
  - pose proof (SetAuth_rejects_empty_keys
                  Scripted.world0 Scripted.goodRequest
                  (SetAuthArgs.mk "newkey" "") SetAuthReply.zero) as H.
    specialize (H eq_refl). destruct H as (_ & Hs & _).
    apply Hs; [discriminate | reflexivity].
Defined.

(** A full storage root is written with status 507, not 500. *)
Lemma writeWebErrorResponse_total_witness :
  http_Status (spec_Translate (fs_RootPathFull "/export")) = 507 /\
  http_Status (spec_Translate (fs_RootPathFull "/export"))
    <> http_Status InternalError.
Proof.
  split; [reflexivity |].
  pose proof (@writeWebErrorResponse_total
                Scripted.State Scripted.platform Scripted.apiErrors
                (fun _ => "row") [] (fs_RootPathFull "/export")) as H.
  destruct H as (_ & _ & _ & _ & _ & _ & _ & _ & _ & _ & _ & Hspec).
  destruct (Hspec eq_refl) as [_ Hne]. exact Hne.
Defined.

(** A token declaring RS256, in the header and in the query. *)
Lemma non_HMAC_token_is_refused_witness :
  declaresHMAC "RS256.secret123" = false /\
  isJWTReqAuthenticated Scripted.world0 Scripted.rsaRequest = false /\
  Download [] Scripted.rsaRequest Scripted.world0
    = ([WriteHeader 403; Write "Invalid token"], Scripted.world0).
Proof.
  split; [reflexivity |].
  pose proof (@non_HMAC_token_is_refused
                Scripted.State Scripted.platform Scripted.filesystem
                Scripted.auth Scripted.apiErrors
                Scripted.world0 Scripted.rsaRequest "RS256.secret123") as H.
  specialize (H eq_refl). destruct H as [Hhdr Hqry].
  split.
  - apply (Hhdr eq_refl).
  - apply (Hqry eq_refl []).
Defined.

(** Of the buckets photos, minio and logs, the reply holds photos and
    logs. *)
Lemma ListBuckets_hides_reserved_bucket_witness :
  exists reply st',
    ListBuckets Scripted.goodRequest mkGenericArgs ListBucketsRep.zero
                Scripted.world0 = ((reply, None), st') /\
    ListBucketsRep.Buckets reply
      = [BucketInfo.mk "photos" (TimeAt 1); BucketInfo.mk "logs" (TimeAt 3)].
Proof.
  pose proof (@ListBuckets_hides_reserved_bucket
                Scripted.State Scripted.platform Scripted.filesystem
                Scripted.auth
                Scripted.world0 Scripted.goodRequest mkGenericArgs
                (Scripted.buckets Scripted.state0) Scripted.state0) as H.
  specialize (H eq_refl eq_refl).
  destruct H as (reply & st' & Hrun & Hlist & _).
  exists reply, st'. split; [exact Hrun | exact Hlist].
Defined.

(** Setting newkey/newsecret, then reading it back with a token issued
    under the new secret. *)
Lemma SetAuth_then_GetAuth_witness :
  exists st'',
    GetAuth (Scripted.request "Bearer HS256.newsecret" []) mkGenericArgs
            GetAuthReply.zero
            (snd (SetAuth Scripted.goodRequest
                          (SetAuthArgs.mk "newkey" "newsecret")
                          SetAuthReply.zero Scripted.world0))
      = ((GetAuthReply.mk "newkey" "newsecret" "ui-1", None), st'').
Proof.
  pose proof (@SetAuth_then_GetAuth
                Scripted.State Scripted.platform Scripted.auth
                Scripted.world0
                (snd (SetAuth Scripted.goodRequest
                              (SetAuthArgs.mk "newkey" "newsecret")
                              SetAuthReply.zero Scripted.world0))
                Scripted.goodRequest (SetAuthArgs.mk "newkey" "newsecret")
                SetAuthReply.zero
                (SetAuthReply.mk "HS256.newsecret" "ui-1")) as H.
  specialize (H eq_refl). destruct H as (_ & _ & Hget).
  apply (Hget (Scripted.request "Bearer HS256.newsecret" []) mkGenericArgs
              GetAuthReply.zero).
  reflexivity.
Defined.

(** The scripted listing of "photos": two pages, the first truncated. *)
Lemma Scripted_listing :
  Paged (ListObjectsArgs.mk "photos" "") ""
        (sys Scripted.world0)
        [Scripted.page1; Scripted.page2] Scripted.state0.
Proof.
  eapply Paged_more; [reflexivity | reflexivity |].
  apply Paged_last; reflexivity.
Defined.

(** The two scripted pages, merged. *)
Lemma ListObjects_concatenates_pages_witness :
  exists st',
    ListObjects 2 Scripted.goodRequest (ListObjectsArgs.mk "photos" "")
                ListObjectsRep.zero Scripted.world0
      = Some ((ListObjectsRep.mk
                 [ObjectInfo.mk "a.txt" (TimeAt 11) 3 "";
                  ObjectInfo.mk "b.bin" (TimeAt 12) 5 "";
                  ObjectInfo.mk "docs/" Time_zero 0 "";
                  ObjectInfo.mk "z.txt" (TimeAt 13) 8 "";
                  ObjectInfo.mk "img/" Time_zero 0 "";
                  ObjectInfo.mk "tmp/" Time_zero 0 ""]
                 "ui-1", None), st').
Proof.
  pose proof (@ListObjects_concatenates_pages
                Scripted.State Scripted.platform Scripted.filesystem
                Scripted.auth
                Scripted.world0 Scripted.goodRequest
                (ListObjectsArgs.mk "photos" "")
                [Scripted.page1; Scripted.page2] Scripted.state0 2%nat) as H.
  specialize (H eq_refl Scripted_listing).
  apply H. simpl. lia.
Defined.

(** Two requests, the second with the marker m1 of the first page; one
    turn is not enough. *)
Lemma ListObjects_pagination_terminates_witness :
  (exists reply',
     ListObjects 2 Scripted.goodRequest (ListObjectsArgs.mk "photos" "")
                 ListObjectsRep.zero Scripted.world0
       = Some ((reply', None),
               {| sys := Scripted.state0;
                  serverConfig := mkCredential "admin" "secret123";
                  calls := [call_ListObjects "photos" "" "" "/" 1000;
                            call_ListObjects "photos" "" "m1" "/" 1000] |})) /\
  ListObjects 1 Scripted.goodRequest (ListObjectsArgs.mk "photos" "")
              ListObjectsRep.zero Scripted.world0 = None.
Proof.
  pose proof (@ListObjects_pagination_terminates
                Scripted.State Scripted.platform Scripted.filesystem
                Scripted.auth
                Scripted.world0 Scripted.goodRequest
                (ListObjectsArgs.mk "photos" "")
                [Scripted.page1; Scripted.page2] Scripted.state0) as H.
  specialize (H eq_refl Scripted_listing).
  destruct H as (_ & Hdone & Hrunning).
  split.
  - apply (Hdone 2%nat ListObjectsRep.zero). simpl. lia.
  - apply (Hrunning 1%nat ListObjectsRep.zero). simpl. lia.
Defined.

(** C9. On the scripted backend, whose first object is "a.txt" of type
    "text/plain", an authenticated ListObjects answers with an entry for
    "a.txt" that has the backend's modification time and size and an empty
    content type; the entry of the common prefix "docs/" has its key only. *)
Theorem ListObjects_leaves_contentType_empty :
  exists st',
    ListObjects 2 Scripted.goodRequest (ListObjectsArgs.mk "photos" "")
                ListObjectsRep.zero Scripted.world0
      = Some ((ListObjectsRep.mk
                 [ObjectInfo.mk "a.txt" (TimeAt 11) 3 "";
                  ObjectInfo.mk "b.bin" (TimeAt 12) 5 "";
                  ObjectInfo.mk "docs/" Time_zero 0 "";
                  ObjectInfo.mk "z.txt" (TimeAt 13) 8 "";
                  ObjectInfo.mk "img/" Time_zero 0 "";
                  ObjectInfo.mk "tmp/" Time_zero 0 ""]
                 "ui-1", None), st') /\
    map fs.ContentType (fs.Objects Scripted.page1)
      = ["text/plain"; "application/octet-stream"].
Proof.
  eexists. split; reflexivity.
Qed.

(** * Further behaviour of the handlers *)

Section Behaviour.

Context {Sys : Type}.
Context {platform : Platform Sys} {filesystem : Filesystem Sys}
        {auth : Auth Sys} {apiErrors : APIErrors}.

Ltac run :=
  unfold serverConfig_GetCredential, serverConfig_SetCredential,
         serverConfig_Save;
  unfold bind, gets, ret, call, initJWT; simpl.

(** Case analysis on whatever the goal still branches on, innermost
    first. *)
Ltac cases :=
  repeat match goal with
         | |- context [match ?x with _ => _ end] =>
             lazymatch x with
             | context [match _ with _ => _ end] => fail
             | _ => destruct x; simpl
             end
         end.

(** ** The token check *)

(** The header check, computed: the token string is found, decodes, names
    an HMAC method and verifies under the active secret. *)
Lemma token_check_computed :
  forall (st : World Sys) (r : Request),
    isJWTReqAuthenticated st r
    = match jwt_requestToken r with
      | Some tokenString =>
          match jwt_decode tokenString with
          | Some token =>
              isSigningMethodHMAC (Method token)
              && jwt_verify (sys st) token (SecretAccessKey (serverConfig st))
          | None => false
          end
      | None => false
      end.
Proof.
  intros st r.
  unfold isJWTReqAuthenticated, ParseFromRequest, Parse, initJWT.
  destruct (jwt_requestToken r) as [s |]; [| reflexivity].
  destruct (jwt_decode s) as [token |]; [| reflexivity].
  destruct (isSigningMethodHMAC (Method token)); simpl; [| reflexivity].
  destruct (jwt_verify (sys st) token (SecretAccessKey (serverConfig st)));
    reflexivity.
Qed.

(** X1. The header check accepts a request exactly when the library finds
    a token string in it, the string decodes to a token whose method is of
    the HMAC family, and that token verifies under the secret key of the
    credential active at that moment. *)
Theorem token_check_accepts_exactly :
  forall (st : World Sys) (r : Request),
    isJWTReqAuthenticated st r = true <->
    exists tokenString token,
      jwt_requestToken r = Some tokenString /\
      jwt_decode tokenString = Some token /\
      isSigningMethodHMAC (Method token) = true /\
      jwt_verify (sys st) token (SecretAccessKey (serverConfig st)) = true.
Proof.
  intros st r. rewrite token_check_computed. split.
  - destruct (jwt_requestToken r) as [s |] eqn:Hreq; [| discriminate].
    destruct (jwt_decode s) as [token |] eqn:Hdec; [| discriminate].
    intros H. apply andb_true_iff in H. destruct H as [Hm Hv].
    exists s, token. repeat split; assumption.
  - intros (s & token & Hreq & Hdec & Hm & Hv).
    rewrite Hreq, Hdec, Hm, Hv. reflexivity.
Qed.

(** The outcome of parsing a token string with the key function both
    paths pass to the library. *)
Lemma Download_gate :
  forall (st : World Sys) (w : ResponseWriter) (r : Request),
    Download w r st
    = if match Parse (sys st) (lookup "token" (URL_Query r))
                 (fun token =>
                    if negb (isSigningMethodHMAC (Method token))
                    then inr (otherError "*errors.errorString"
                                ("Unexpected signing method: "
                                 ++ Header_alg token))
                    else inl (SecretAccessKey (serverConfig st))) with
         | inr _ => true
         | inl jwttoken => negb (Valid jwttoken)
         end
      then (writeWebErrorResponse w errInvalidToken, st)
      else
        let bucket := lookup "bucket" (Vars r) in
        let object := lookup "object" (Vars r) in
        let w1 := (w ++ [Header_Set "Content-Disposition"
                           ("attachment; filename=" ++ quote
                            ++ filepath_Base object ++ quote)%string])%list in
        let '((w2, err), s1) := fs_GetObject w1 bucket object 0 0 (sys st) in
        (match err with
         | Some err => writeWebErrorResponse w2 (ToGoError err)
         | None => w2
         end,
         {| sys := s1; serverConfig := serverConfig st;
            calls := (calls st ++ [call_GetObject bucket object 0 0])%list |}).
Proof.
  intros st w r. unfold Download. run.
  match goal with
  | |- context [Parse ?s ?t ?k] => destruct (Parse s t k) as [tok | e]
  end; simpl.
  - destruct (Valid tok); simpl; [| reflexivity].
    destruct (fs_GetObject _ _ _ _ _ _) as [[w2 [e |]] s1]; reflexivity.
  - reflexivity.
Qed.

(** X2. The two verification paths decide alike: for one and the same
    token string, presented in the header to an RPC method or in the query
    to Download, the header check fails exactly when Download answers
    with the fixed 403 response and makes no call. *)
Theorem header_and_query_checks_agree :
  forall (st : World Sys) (r rq : Request) (tokenString : string)
         (w : ResponseWriter),
    jwt_requestToken r = Some tokenString ->
    lookup "token" (URL_Query rq) = tokenString ->
    (isJWTReqAuthenticated st r = false <->
     Download w rq st
       = ((w ++ [WriteHeader 403; Write (Error errInvalidToken)])%list, st)).
Proof.
  intros st r rq s w Hreq Hq.
  rewrite Download_gate, Hq.
  unfold isJWTReqAuthenticated, ParseFromRequest, initJWT. rewrite Hreq.
  match goal with
  | |- context [Parse ?s ?t ?k] => destruct (Parse s t k) as [tok | e]
  end; simpl.
  - destruct (Valid tok); simpl.
    + split; [discriminate |].
      destruct (fs_GetObject _ _ _ _ _ _) as [[w2 err] s1].
      intros H. injection H as _ Hst.
      apply (f_equal (fun x => length (calls x))) in Hst. simpl in Hst.
      rewrite length_app in Hst. simpl in Hst. lia.
    + split; reflexivity.
  - split; reflexivity.
Qed.

(** ** What the listing loop touches *)

(** However the loop is left, it has only made listing requests for the
    bucket and prefix asked for, at most one per turn, and has not touched
    the credential. *)
Lemma ListObjects_loop_footprint :
  forall (fuel : nat) (args : ListObjectsArgs.t) (marker : string)
         (reply : ListObjectsRep.t) (st : World Sys),
    match ListObjects_loop fuel args marker reply st with
    | Some (_, st') =>
        serverConfig st' = serverConfig st /\
        exists markers,
          calls st' = (calls st ++ map (listCall args) markers)%list /\
          (length markers <= fuel)%nat /\
          hd_error markers = Some marker
    | None => True
    end.
Proof.
  induction fuel as [| fuel IH]; intros args marker reply st; simpl;
    [exact I |].
  unfold call.
  destruct (fs_ListObjects _ _ _ _ _ _) as [[lo [err |]] s1]; simpl.
  - split; [reflexivity |]. exists [marker]. simpl.
    repeat split; auto; lia.
  - destruct (fs.IsTruncated lo); simpl.
    + match goal with
      | |- context [ListObjects_loop fuel args ?m ?rp ?w] =>
          specialize (IH args m rp w);
          destruct (ListObjects_loop fuel args m rp w) as [[res st'] |];
          [| exact I]
      end.
      simpl in IH. destruct IH as [Hcfg [ms [Hcalls [Hlen _]]]].
      split; [exact Hcfg |].
      exists (marker :: ms). simpl. rewrite Hcalls, <- app_assoc.
      repeat split; auto; lia.
    + split; [reflexivity |]. exists [marker]. simpl.
      repeat split; auto; lia.
Qed.

(** X3. Whatever its outcome, a ListObjects call that returns has only
    made listing requests, all for the bucket and prefix of its arguments
    with delimiter "/" and page size 1000, at most one per loop turn and
    the first with the empty marker; if the token check failed it made
    none. *)
Theorem ListObjects_only_lists :
  forall (fuel : nat) (st : World Sys) (r : Request)
         (args : ListObjectsArgs.t) (reply : ListObjectsRep.t),
    match ListObjects fuel r args reply st with
    | Some (_, st') =>
        exists markers,
          calls st'
            = (calls st
               ++ map (fun marker =>
                         call_ListObjects (ListObjectsArgs.BucketName args)
                                          (ListObjectsArgs.Prefix args)
                                          marker "/" 1000)
                      markers)%list /\
          (length markers <= fuel)%nat /\
          (isJWTReqAuthenticated st r = true ->
             hd_error markers = Some EmptyString) /\
          (isJWTReqAuthenticated st r = false -> markers = [])
    | None => True
    end.
Proof.
  intros fuel st r args reply. unfold ListObjects.
  destruct (isJWTReqAuthenticated st r); simpl.
  - pose proof (ListObjects_loop_footprint fuel args "" reply st) as H.
    destruct (ListObjects_loop fuel args "" reply st)
      as [[[rp [e |]] st'] |]; [| | exact I];
      destruct H as [_ [ms [Hc [Hl Hh]]]];
      exists ms; repeat split; auto; discriminate.
  - exists []. simpl. rewrite app_nil_r.
    repeat split; auto; try lia; discriminate.
Qed.



(** The loop over a listing that breaks off. *)
Lemma ListObjects_loop_failing :
  forall (args : ListObjectsArgs.t) (marker : string) (s s' : Sys)
         (pages : list fs.ListObjectsResult) (err : probeError),
    PagedFailing args marker s pages err s' ->
    forall (fuel : nat) (reply : ListObjectsRep.t) (cfg : credential)
           (cs : list Call),
      (length pages < fuel)%nat ->
      ListObjects_loop fuel args marker reply
        {| sys := s; serverConfig := cfg; calls := cs |}
      = Some (({| ListObjectsRep.Objects :=
                    (ListObjectsRep.Objects reply
                     ++ flat_map pageEntries pages)%list;
                  ListObjectsRep.UIVersion := ListObjectsRep.UIVersion reply |},
               Some (json2_Error (Error (Cause err)))),
              {| sys := s'; serverConfig := cfg;
                 calls := (cs ++ map (listCall args)
                                     (requestMarkers marker pages
                                      ++ [followingMarker marker pages]))%list |}).
Proof.
  intros args marker s s' pages err HP.
  induction HP as [marker s lo err s' Hcall
                  | marker s lo s1 los err s' Hcall Hmore HP IH];
    intros fuel reply cfg cs Hfuel;
    (destruct fuel as [| fuel]; [simpl in Hfuel; lia |]);
    simpl; unfold call; simpl; rewrite Hcall; simpl.
  - destruct reply as [objects ui]. simpl. now rewrite app_nil_r.
  - rewrite ListObjects_page, Hmore. simpl.
    rewrite IH by (simpl in Hfuel; lia). simpl.
    now rewrite <- !app_assoc.
Qed.

(** X5. When the backend fails after some truncated pages, an
    authenticated ListObjects returns the message of that failure's cause,
    having made one request per page fetched and one more, the failing
    one, with the marker of the last page fetched.  The reply it was
    handed holds the entries of the pages fetched so far and has not
    received the UI version. *)
Theorem ListObjects_failure_after_pages :
  forall (st : World Sys) (r : Request) (args : ListObjectsArgs.t)
         (pages : list fs.ListObjectsResult) (err : probeError) (s' : Sys)
         (fuel : nat) (reply : ListObjectsRep.t),
    isJWTReqAuthenticated st r = true ->
    PagedFailing args "" (sys st) pages err s' ->
    (length pages < fuel)%nat ->
    ListObjects fuel r args reply st
      = Some (({| ListObjectsRep.Objects :=
                    (ListObjectsRep.Objects reply
                     ++ flat_map pageEntries pages)%list;
                  ListObjectsRep.UIVersion := ListObjectsRep.UIVersion reply |},
               Some (json2_Error (Error (Cause err)))),
              {| sys := s'; serverConfig := serverConfig st;
                 calls := (calls st
                           ++ map (listCall args)
                                  (requestMarkers "" pages
                                   ++ [followingMarker "" pages]))%list |}).
Proof.
  intros [s cfg cs] r args pages err s' fuel reply Hauth HP Hfuel.
  simpl in HP. unfold ListObjects. rewrite Hauth. simpl.
  rewrite (ListObjects_loop_failing HP) by exact Hfuel. reflexivity.
Qed.

(** ** What every handler keeps *)

(** X6. No handler but SetAuth changes the active credential: whatever the
    request, the arguments and the outcome, ServerInfo, DiskInfo,
    MakeBucket, ListBuckets, ListObjects, RemoveObject, Login,
    GenerateAuth, GetAuth, Upload and Download leave it as they found it. *)
Theorem credential_changed_only_by_SetAuth :
  forall (st : World Sys) (r : Request),
    (forall args reply,
        serverConfig (snd (ServerInfo r args reply st)) = serverConfig st) /\
    (forall args reply,
        serverConfig (snd (DiskInfo r args reply st)) = serverConfig st) /\
    (forall args reply,
        serverConfig (snd (MakeBucket r args reply st)) = serverConfig st) /\
    (forall args reply,
        serverConfig (snd (ListBuckets r args reply st)) = serverConfig st) /\
    (forall fuel args reply,
        match ListObjects fuel r args reply st with
        | Some (_, st') => serverConfig st' = serverConfig st
        | None => True
        end) /\
    (forall args reply,
        serverConfig (snd (RemoveObject r args reply st)) = serverConfig st) /\
    (forall args reply,
        serverConfig (snd (Login r args reply st)) = serverConfig st) /\
    (forall args reply,
        serverConfig (snd (GenerateAuth r args reply st)) = serverConfig st) /\
    (forall args reply,
        serverConfig (snd (GetAuth r args reply st)) = serverConfig st) /\
    (forall w, serverConfig (snd (Upload w r st)) = serverConfig st) /\
    (forall w, serverConfig (snd (Download w r st)) = serverConfig st).
Proof.
  intros st r.
  repeat match goal with |- _ /\ _ => split end; intros.
  - unfold ServerInfo; run; cases; reflexivity.
  - unfold DiskInfo; run; cases; reflexivity.
  - unfold MakeBucket; run; cases; reflexivity.
  - unfold ListBuckets; run; cases; reflexivity.
  - unfold ListObjects.
    destruct (isJWTReqAuthenticated st r); simpl; [| reflexivity].
    pose proof (ListObjects_loop_footprint fuel args "" reply st) as H.
    destruct (ListObjects_loop fuel args "" reply st)
      as [[[rp [e |]] st'] |]; [| | exact I]; apply H.
  - unfold RemoveObject; run; cases; reflexivity.
  - unfold Login; run; cases; reflexivity.
  - unfold GenerateAuth; run; cases; reflexivity.
  - unfold GetAuth; run; cases; reflexivity.
  - unfold Upload; run; cases; reflexivity.
  - rewrite Download_gate.
    match goal with
    | |- context [Parse ?s ?t ?k] => destruct (Parse s t k) as [tok | e]
    end; simpl; cases; reflexivity.
Qed.

(** X7. Every RPC method that returns without error returns a reply that
    carries the UI version, whatever reply it was handed. *)
Theorem successful_reply_is_stamped :
  forall (st : World Sys) (r : Request),
    (forall args reply reply' st',
        ServerInfo r args reply st = ((reply', None), st') ->
        ServerInfoRep.UIVersion reply' = miniobrowser_UIVersion) /\
    (forall args reply reply' st',
        DiskInfo r args reply st = ((reply', None), st') ->
        DiskInfoRep.UIVersion reply' = miniobrowser_UIVersion) /\
    (forall args reply reply' st',
        MakeBucket r args reply st = ((reply', None), st') ->
        GenericRep.UIVersion reply' = miniobrowser_UIVersion) /\
    (forall args reply reply' st',
        ListBuckets r args reply st = ((reply', None), st') ->
        ListBucketsRep.UIVersion reply' = miniobrowser_UIVersion) /\
    (forall fuel args reply reply' st',
        ListObjects fuel r args reply st = Some ((reply', None), st') ->
        ListObjectsRep.UIVersion reply' = miniobrowser_UIVersion) /\
    (forall args reply reply' st',
        RemoveObject r args reply st = ((reply', None), st') ->
        GenericRep.UIVersion reply' = miniobrowser_UIVersion) /\
    (forall args reply reply' st',
        Login r args reply st = ((reply', None), st') ->
        LoginRep.UIVersion reply' = miniobrowser_UIVersion) /\
    (forall args reply reply' st',
        GenerateAuth r args reply st = ((reply', None), st') ->
        GenerateAuthReply.UIVersion reply' = miniobrowser_UIVersion) /\
    (forall args reply reply' st',
        SetAuth r args reply st = ((reply', None), st') ->
        SetAuthReply.UIVersion reply' = miniobrowser_UIVersion) /\
    (forall args reply reply' st',
        GetAuth r args reply st = ((reply', None), st') ->
        GetAuthReply.UIVersion reply' = miniobrowser_UIVersion).
Proof.
  intros st r.
  repeat match goal with |- _ /\ _ => split end;
    intros until st'; intros Hrun; revert Hrun;
    unfold ServerInfo, DiskInfo, MakeBucket, ListBuckets, ListObjects,
           RemoveObject, Login, GenerateAuth, SetAuth, GetAuth;
    run; cases; intros Hrun; inversion Hrun; reflexivity.
Qed.

(** X8. After a passed token check, each single-operation method makes
    exactly the calls of its one operation, whether that operation
    succeeds or fails: ServerInfo asks for the host name and the memory
    statistics, DiskInfo for the root path and then the disk under that
    very path, MakeBucket, ListBuckets and RemoveObject make their one
    filesystem call with the names of their arguments, GenerateAuth draws
    one key pair and GetAuth reads the credential once. *)
Theorem authenticated_call_footprint :
  forall (st : World Sys) (r : Request),
    isJWTReqAuthenticated st r = true ->
    (forall args reply,
        calls (snd (ServerInfo r args reply st))
          = (calls st ++ [call_Hostname; call_ReadMemStats])%list) /\
    (forall args reply,
        calls (snd (DiskInfo r args reply st))
          = (calls st ++ [call_GetRootPath;
                          call_disk_GetInfo (fst (GetRootPath (sys st)))])%list) /\
    (forall args reply,
        calls (snd (MakeBucket r args reply st))
          = (calls st
             ++ [call_MakeBucket (MakeBucketArgs.BucketName args)])%list) /\
    (forall args reply,
        calls (snd (ListBuckets r args reply st))
          = (calls st ++ [call_ListBuckets])%list) /\
    (forall args reply,
        calls (snd (RemoveObject r args reply st))
          = (calls st
             ++ [call_DeleteObject (RemoveObjectArgs.BucketName args)
                                   (RemoveObjectArgs.ObjectName args)])%list) /\
    (forall args reply,
        calls (snd (GenerateAuth r args reply st))
          = (calls st ++ [call_mustGenAccessKeys])%list) /\
    (forall args reply,
        calls (snd (GetAuth r args reply st))
          = (calls st ++ [call_GetCredential])%list).
Proof.
  intros st r Hauth.
  repeat match goal with |- _ /\ _ => split end; intros;
    unfold ServerInfo, DiskInfo, MakeBucket, ListBuckets, RemoveObject,
           GenerateAuth, GetAuth;
    run; rewrite Hauth; simpl; cases;
    rewrite <- ?app_assoc; reflexivity.
Qed.

(** X9. A backend failure is surfaced as the message of its cause, with no
    further data.  MakeBucket and RemoveObject have stamped the reply with
    the UI version before they call the backend, so the reply is stamped
    even then; DiskInfo and ListBuckets return the reply they were handed
    untouched, and ListBuckets ignores any buckets that came with the
    failure. *)
Theorem backend_failure_is_surfaced :
  forall (st : World Sys) (r : Request),
    isJWTReqAuthenticated st r = true ->
    (forall args reply e s',
        fs_MakeBucket (MakeBucketArgs.BucketName args) (sys st)
          = (Some e, s') ->
        fst (MakeBucket r args reply st)
          = ({| GenericRep.UIVersion := miniobrowser_UIVersion |},
             Some {| Message := Error (Cause e); Data := None |})) /\
    (forall args reply e s',
        fs_DeleteObject (RemoveObjectArgs.BucketName args)
                        (RemoveObjectArgs.ObjectName args) (sys st)
          = (Some e, s') ->
        fst (RemoveObject r args reply st)
          = ({| GenericRep.UIVersion := miniobrowser_UIVersion |},
             Some {| Message := Error (Cause e); Data := None |})) /\
    (forall args reply buckets e s',
        fs_ListBuckets (sys st) = ((buckets, Some e), s') ->
        fst (ListBuckets r args reply st)
          = (reply, Some {| Message := Error (Cause e); Data := None |})) /\
    (forall args reply root s1 info e s2,
        GetRootPath (sys st) = (root, s1) ->
        disk_GetInfo root s1 = ((info, Some e), s2) ->
        fst (DiskInfo r args reply st)
          = (reply, Some {| Message := Error e; Data := None |})).
Proof.
  intros st r Hauth.
  repeat match goal with |- _ /\ _ => split end.
  - intros args reply e s' H. unfold MakeBucket. run.
    rewrite Hauth. simpl. rewrite H. reflexivity.
  - intros args reply e s' H. unfold RemoveObject. run.
    rewrite Hauth. simpl. rewrite H. reflexivity.
  - intros args reply bs e s' H. unfold ListBuckets. run.
    rewrite Hauth. simpl. rewrite H. reflexivity.
  - intros args reply root s1 info e s2 H1 H2. unfold DiskInfo. run.
    rewrite Hauth. simpl. rewrite H1. simpl. rewrite H2. reflexivity.
Qed.

(** ** ServerInfo *)

(** X10. After a passed token check ServerInfo never returns an error.
    When the host name lookup fails, whatever name came with the failure
    is dropped and the platform line carries an empty host. *)
Theorem ServerInfo_never_fails :
  forall (st : World Sys) (r : Request) (args : GenericArgs)
         (reply : ServerInfoRep.t),
    isJWTReqAuthenticated st r = true ->
    snd (fst (ServerInfo r args reply st)) = None /\
    ServerInfoRep.MinioVersion (fst (fst (ServerInfo r args reply st)))
      = minioVersion /\
    (forall host e s1,
        os_Hostname (sys st) = ((host, Some e), s1) ->
        ServerInfoRep.MinioPlatform (fst (fst (ServerInfo r args reply st)))
          = "Host: " ++ "" ++ " | OS: " ++ runtime_GOOS
            ++ " | Arch: " ++ runtime_GOARCH) /\
    (forall host s1,
        os_Hostname (sys st) = ((host, None), s1) ->
        ServerInfoRep.MinioPlatform (fst (fst (ServerInfo r args reply st)))
          = "Host: " ++ host ++ " | OS: " ++ runtime_GOOS
            ++ " | Arch: " ++ runtime_GOARCH).
Proof.
  intros st r args reply Hauth.
  unfold ServerInfo. run. rewrite Hauth. simpl.
  repeat match goal with |- _ /\ _ => split end.
  - cases; reflexivity.
  - cases; reflexivity.
  - intros host e s1 H. rewrite H. simpl. cases; reflexivity.
  - intros host s1 H. rewrite H. simpl. cases; reflexivity.
Qed.

(** ** SetAuth *)

(** X11. Once SetAuth is past the token check and the two empty-key
    checks, the pair it was given is the active credential when it
    returns, whatever happens afterwards (a failed save, a failed
    re-authentication, a failed token issuance): the first two calls it
    makes are the replacement of the credential and the save, in that
    order, and nothing undoes the replacement. *)
Theorem SetAuth_replaces_credential_first :
  forall (st : World Sys) (r : Request) (args : SetAuthArgs.t)
         (reply : SetAuthReply.t),
    isJWTReqAuthenticated st r = true ->
    SetAuthArgs.AccessKey args <> "" ->
    SetAuthArgs.SecretKey args <> "" ->
    let cred := {| AccessKeyID := SetAuthArgs.AccessKey args;
                   SecretAccessKey := SetAuthArgs.SecretKey args |} in
    serverConfig (snd (SetAuth r args reply st)) = cred /\
    exists rest,
      calls (snd (SetAuth r args reply st))
        = (calls st ++ [call_SetCredential cred; call_Save] ++ rest)%list.
Proof.
  intros st r args reply Hauth Ha Hs cred. subst cred.
  apply String.eqb_neq in Ha. apply String.eqb_neq in Hs.
  unfold SetAuth. run. rewrite Hauth, Ha, Hs. simpl.
  cases; (split; [reflexivity |]); rewrite <- ?app_assoc; simpl;
    eexists; reflexivity.
Qed.

(** X12. When the save fails, SetAuth returns the message of the failure's
    cause and the reply untouched, has made no call after the save, and
    leaves the new pair active in memory although it was not persisted. *)
Theorem SetAuth_failed_save_is_not_rolled_back :
  forall (st : World Sys) (r : Request) (args : SetAuthArgs.t)
         (reply : SetAuthReply.t) (e : probeError) (s1 : Sys),
    isJWTReqAuthenticated st r = true ->
    SetAuthArgs.AccessKey args <> "" ->
    SetAuthArgs.SecretKey args <> "" ->
    config_Save {| AccessKeyID := SetAuthArgs.AccessKey args;
                   SecretAccessKey := SetAuthArgs.SecretKey args |} (sys st)
      = (Some e, s1) ->
    SetAuth r args reply st
      = ((reply, Some (json2_Error (Error (Cause e)))),
         {| sys := s1;
            serverConfig := {| AccessKeyID := SetAuthArgs.AccessKey args;
                               SecretAccessKey := SetAuthArgs.SecretKey args |};
            calls := (calls st
                      ++ [call_SetCredential
                            {| AccessKeyID := SetAuthArgs.AccessKey args;
                               SecretAccessKey := SetAuthArgs.SecretKey args |};
                          call_Save])%list |}).
Proof.
  intros st r args reply e s1 Hauth Ha Hs Hsave.
  apply String.eqb_neq in Ha. apply String.eqb_neq in Hs.
  unfold SetAuth. run. rewrite Hauth, Ha, Hs. simpl.
  rewrite Hsave. simpl. now rewrite <- app_assoc.
Qed.

(** X13. A SetAuth that returns without error has made exactly four
    calls, in this order: replace the credential, save it, authenticate
    the given keys, issue a token for the given access key.  The save
    succeeded, the keys authenticated against the new pair, and the token
    in the reply is the one issued under the new pair. *)
Theorem SetAuth_success_trace :
  forall (st st' : World Sys) (r : Request) (args : SetAuthArgs.t)
         (reply reply' : SetAuthReply.t),
    SetAuth r args reply st = ((reply', None), st') ->
    let cred := {| AccessKeyID := SetAuthArgs.AccessKey args;
                   SecretAccessKey := SetAuthArgs.SecretKey args |} in
    isJWTReqAuthenticated st r = true /\
    serverConfig st' = cred /\
    calls st'
      = (calls st
         ++ [call_SetCredential cred; call_Save;
             call_Authenticate (SetAuthArgs.AccessKey args)
                               (SetAuthArgs.SecretKey args);
             call_GenerateToken (SetAuthArgs.AccessKey args)])%list /\
    jwt_Authenticate cred (SetAuthArgs.AccessKey args)
                     (SetAuthArgs.SecretKey args) = true /\
    exists s1,
      config_Save cred (sys st) = (None, s1) /\
      jwt_GenerateToken cred (SetAuthArgs.AccessKey args) s1
        = ((SetAuthReply.Token reply', None), sys st').
Proof.
  intros st st' r args reply reply' Hset cred. subst cred.
  unfold SetAuth in Hset. revert Hset. run.
  destruct (isJWTReqAuthenticated st r); simpl; [| discriminate].
  destruct (SetAuthArgs.AccessKey args =? "")%string; [discriminate |].
  destruct (SetAuthArgs.SecretKey args =? "")%string; [discriminate |].
  match goal with
  | |- context [config_Save ?c ?s] =>
      destruct (config_Save c s) as [[e |] s1] eqn:Hsave; simpl;
      [discriminate |]
  end.
  match goal with
  | |- context [jwt_Authenticate ?c ?a ?b] =>
      destruct (jwt_Authenticate c a b) eqn:Hok; simpl; [| discriminate]
  end.
  match goal with
  | |- context [jwt_GenerateToken ?c ?a ?s] =>
      destruct (jwt_GenerateToken c a s) as [[tok [e |]] s2] eqn:Htok;
      simpl; [discriminate |]
  end.
  intros Hset. injection Hset as <- <-. simpl.
  repeat match goal with |- _ /\ _ => split end; auto.
  - now rewrite <- !app_assoc.
  - exists s1. split; [reflexivity | exact Htok].
Qed.

(** ** Login *)

(** X14. Login asks for no token: its outcome is decided by the arguments
    and the active credential alone.  Rejected credentials are answered
    with "Invalid credentials" after the one authentication call, without
    any token being issued; accepted ones with the issued token and the
    UI version; a failed issuance with the message of its cause and, as
    data, the failure's printed trace, the reply being left untouched. *)
Theorem Login_outcomes :
  forall (st : World Sys) (r : Request) (args : LoginArgs.t)
         (reply : LoginRep.t),
    let user := LoginArgs.Username args in
    let pass := LoginArgs.Password args in
    (jwt_Authenticate (serverConfig st) user pass = false ->
       Login r args reply st
         = ((reply, Some (json2_Error "Invalid credentials")),
            {| sys := sys st; serverConfig := serverConfig st;
               calls := (calls st ++ [call_Authenticate user pass])%list |})) /\
    (forall token s1,
       jwt_Authenticate (serverConfig st) user pass = true ->
       jwt_GenerateToken (serverConfig st) user (sys st)
         = ((token, None), s1) ->
       Login r args reply st
         = (({| LoginRep.Token := token;
                LoginRep.UIVersion := miniobrowser_UIVersion |}, None),
            {| sys := s1; serverConfig := serverConfig st;
               calls := (calls st ++ [call_Authenticate user pass;
                                      call_GenerateToken user])%list |})) /\
    (forall token e s1,
       jwt_Authenticate (serverConfig st) user pass = true ->
       jwt_GenerateToken (serverConfig st) user (sys st)
         = ((token, Some e), s1) ->
       Login r args reply st
         = ((reply, Some {| Message := Error (Cause e);
                            Data := Some (probe_String e) |}),
            {| sys := s1; serverConfig := serverConfig st;
               calls := (calls st ++ [call_Authenticate user pass;
                                      call_GenerateToken user])%list |})).
Proof.
  intros st r args reply user pass. subst user pass.
  repeat match goal with |- _ /\ _ => split end.
  - intros Hno. unfold Login. run. rewrite Hno. reflexivity.
  - intros token s1 Hok Htok. unfold Login. run. rewrite Hok. simpl.
    rewrite Htok. simpl. now rewrite <- app_assoc.
  - intros token e s1 Hok Htok. unfold Login. run. rewrite Hok. simpl.
    rewrite Htok. simpl. now rewrite <- app_assoc.
Qed.

(** ** GenerateAuth and GetAuth *)

(** X15. GenerateAuth hands out the pair it drew without activating it: a
    GetAuth that follows it and passes the token check still answers with
    the credential that was active before. *)
Theorem GenerateAuth_does_not_activate :
  forall (st : World Sys) (r r2 : Request) (args args2 : GenericArgs)
         (reply : GenerateAuthReply.t) (reply2 : GetAuthReply.t),
    isJWTReqAuthenticated st r = true ->
    isJWTReqAuthenticated (snd (GenerateAuth r args reply st)) r2 = true ->
    fst (GenerateAuth r args reply st)
      = ({| GenerateAuthReply.AccessKey :=
              AccessKeyID (fst (mustGenAccessKeys (sys st)));
            GenerateAuthReply.SecretKey :=
              SecretAccessKey (fst (mustGenAccessKeys (sys st)));
            GenerateAuthReply.UIVersion := miniobrowser_UIVersion |}, None) /\
    fst (GetAuth r2 args2 reply2 (snd (GenerateAuth r args reply st)))
      = ({| GetAuthReply.AccessKey := AccessKeyID (serverConfig st);
            GetAuthReply.SecretKey := SecretAccessKey (serverConfig st);
            GetAuthReply.UIVersion := miniobrowser_UIVersion |}, None).
Proof.
  intros st r r2 args args2 reply reply2 Hauth.
  unfold GenerateAuth. run. rewrite Hauth. simpl.
  destruct (mustGenAccessKeys (sys st)) as [cred s1]. simpl.
  intros Hauth2. split; [reflexivity |].
  unfold GetAuth. run. rewrite Hauth2. reflexivity.
Qed.

(** ** Upload and Download *)



(** A key with no binding looks up as the empty string. *)
Lemma lookup_absent :
  forall (k : string) (m : list (string * string)),
    (forall v, ~ In (k, v) m) -> lookup k m = "".
Proof.
  intros k m. induction m as [| [k' v'] m IH]; intros Hno; simpl;
    [reflexivity |].
  destruct (String.eqb k k') eqn:Hk.
  - apply String.eqb_eq in Hk. subst k'. exfalso. apply (Hno v'). now left.
  - apply IH. intros v Hin. apply (Hno v). now right.
Qed.

(** X18. A Download request whose query has no token parameter presents
    the empty token string; when the library cannot decode the empty
    string, the request is answered with the fixed 403 response and the
    backend is not asked for the object. *)
Theorem Download_without_token_is_refused :
  forall (st : World Sys) (w : ResponseWriter) (r : Request),
    (forall v, ~ In ("token", v) (URL_Query r)) ->
    jwt_decode "" = None ->
    Download w r st
      = ((w ++ [WriteHeader 403; Write (Error errInvalidToken)])%list, st).
Proof.
  intros st w r Hno Hdec.
  rewrite Download_gate, (lookup_absent _ _ Hno). unfold Parse.
  rewrite Hdec. reflexivity.
Qed.

(** X19. When the header check fails, Upload writes the fixed 403 response
    with the message of the invalid-token error and returns the world as
    it was: no object is created and the request body is not handed on. *)
Theorem Upload_unauthorized_makes_no_call :
  forall (st : World Sys) (w : ResponseWriter) (r : Request),
    isJWTReqAuthenticated st r = false ->
    Upload w r st
      = ((w ++ [WriteHeader 403; Write (Error errInvalidToken)])%list, st).
Proof.
  intros st w r Hno. unfold Upload. run. rewrite Hno. reflexivity.
Qed.

(** X20. A SetAuth that returns without error rotates the secret of the
    token check: from then on a request passes the header check exactly
    when its token decodes, declares an HMAC method and verifies under the
    secret key that was just set. *)
Theorem SetAuth_rotates_the_secret :
  forall (st st' : World Sys) (r r2 : Request) (args : SetAuthArgs.t)
         (reply reply' : SetAuthReply.t),
    SetAuth r args reply st = ((reply', None), st') ->
    (isJWTReqAuthenticated st' r2 = true <->
     exists tokenString token,
       jwt_requestToken r2 = Some tokenString /\
       jwt_decode tokenString = Some token /\
       isSigningMethodHMAC (Method token) = true /\
       jwt_verify (sys st') token (SetAuthArgs.SecretKey args) = true).
Proof.
  intros st st' r r2 args reply reply' Hset.
  assert (Hcfg : SecretAccessKey (serverConfig st')
                 = SetAuthArgs.SecretKey args).
  { unfold SetAuth in Hset. revert Hset. run. cases;
      intros Hset; inversion Hset; reflexivity. }
  rewrite token_check_computed, Hcfg. split.
  - destruct (jwt_requestToken r2) as [s |] eqn:Hreq; [| discriminate].
    destruct (jwt_decode s) as [token |] eqn:Hdec; [| discriminate].
    intros H. apply andb_true_iff in H. destruct H as [Hm Hv].
    exists s, token. repeat split; assumption.
  - intros (s & token & Hreq & Hdec & Hm & Hv).
    rewrite Hreq, Hdec, Hm, Hv. reflexivity.
Qed.

End Behaviour.

(** * The further statements on the two backends *)

(** The good request passes the header check; its token is found, decodes
    to an HMAC token and verifies under the active secret. *)
Lemma token_check_accepts_exactly_witness :
  exists tokenString token,
    jwt_requestToken Scripted.goodRequest = Some tokenString /\
    jwt_decode tokenString = Some token /\
    isSigningMethodHMAC (Method token) = true /\
    jwt_verify Scripted.state0 token "secret123" = true.
Proof.
  pose proof (@token_check_accepts_exactly
                Scripted.State Scripted.platform Scripted.auth
                Scripted.world0 Scripted.goodRequest) as [H _].
  exact (H eq_refl).
Defined.

(** The RS256 token is refused in the header and in the query alike. *)
Lemma header_and_query_checks_agree_witness :
  isJWTReqAuthenticated Scripted.world0 Scripted.rsaRequest = false /\
  Download [] Scripted.rsaRequest Scripted.world0
    = ([WriteHeader 403; Write "Invalid token"], Scripted.world0).
Proof.
  pose proof (@header_and_query_checks_agree
                Scripted.State Scripted.platform Scripted.filesystem
                Scripted.auth Scripted.apiErrors
                Scripted.world0 Scripted.rsaRequest Scripted.rsaRequest
                "RS256.secret123" [] eq_refl eq_refl) as [H _].
  split; [reflexivity | exact (H eq_refl)].
Defined.

(** Listing "photos" on the scripted backend makes two list calls. *)
Lemma ListObjects_only_lists_witness :
  exists markers,
    [call_ListObjects "photos" "" "" "/" 1000;
     call_ListObjects "photos" "" "m1" "/" 1000]
    = map (fun marker => call_ListObjects "photos" "" marker "/" 1000)
          markers /\
    (length markers <= 2)%nat.
Proof.
  pose proof (@ListObjects_only_lists
                Scripted.State Scripted.platform Scripted.filesystem
                Scripted.auth
                2%nat Scripted.world0 Scripted.goodRequest
                (ListObjectsArgs.mk "photos" "") ListObjectsRep.zero) as H.
  simpl in H. destruct H as [ms [Hc [Hl _]]].
  exists ms. split; [exact Hc | exact Hl].
Defined.


(** The failing listing of "photos": one truncated page, then a failure. *)
Lemma Faulty_listing :
  PagedFailing (ListObjectsArgs.mk "photos" "") ""
               (sys Faulty.world0) [Scripted.page1]
               (mkProbe (fs_BucketNotFound "photos") "ListObjects")
               (Faulty.mkState 2).
Proof.
  eapply PagedFailing_later; [reflexivity | reflexivity |].
  eapply PagedFailing_now. reflexivity.
Defined.

(** On the failing backend the second request fails: the error comes back
    with the first page's entries in the reply and two calls logged. *)
Lemma ListObjects_failure_after_pages_witness :
  ListObjects 2 Scripted.goodRequest (ListObjectsArgs.mk "photos" "")
              ListObjectsRep.zero Faulty.world0
  = Some ((ListObjectsRep.mk
             [ObjectInfo.mk "a.txt" (TimeAt 11) 3 "";
              ObjectInfo.mk "b.bin" (TimeAt 12) 5 "";
              ObjectInfo.mk "docs/" Time_zero 0 ""] "",
           Some (json2_Error "backend failure")),
          {| sys := Faulty.mkState 2;
             serverConfig := mkCredential "admin" "secret123";
             calls := [call_ListObjects "photos" "" "" "/" 1000;
                       call_ListObjects "photos" "" "m1" "/" 1000] |}).
Proof.
  apply (@ListObjects_failure_after_pages
           Faulty.State Faulty.platform Faulty.filesystem Faulty.auth
           Faulty.world0 Scripted.goodRequest
           (ListObjectsArgs.mk "photos" "") [Scripted.page1]
           (mkProbe (fs_BucketNotFound "photos") "ListObjects")
           (Faulty.mkState 2) 2%nat ListObjectsRep.zero
           eq_refl Faulty_listing).
  simpl. lia.
Defined.

(** A successful MakeBucket on the scripted backend is stamped. *)
Lemma successful_reply_is_stamped_witness :
  GenericRep.UIVersion
    (fst (fst (MakeBucket Scripted.goodRequest (MakeBucketArgs.mk "new")
                          GenericRep.zero Scripted.world0))) = "ui-1".
Proof.
  pose proof (@successful_reply_is_stamped
                Scripted.State Scripted.platform Scripted.filesystem
                Scripted.auth Scripted.world0 Scripted.goodRequest)
    as (_ & _ & Hmk & _).
  apply (Hmk (MakeBucketArgs.mk "new") GenericRep.zero _
             (snd (MakeBucket Scripted.goodRequest (MakeBucketArgs.mk "new")
                              GenericRep.zero Scripted.world0))).
  reflexivity.
Defined.

(** DiskInfo on the scripted backend asks for the root, then for the disk
    under it. *)
Lemma authenticated_call_footprint_witness :
  calls (snd (DiskInfo Scripted.goodRequest mkGenericArgs DiskInfoRep.zero
                       Scripted.world0))
  = [call_GetRootPath; call_disk_GetInfo "/export"].
Proof.
  pose proof (@authenticated_call_footprint
                Scripted.State Scripted.platform Scripted.filesystem
                Scripted.auth Scripted.world0 Scripted.goodRequest eq_refl)
    as (_ & Hdisk & _).
  apply (Hdisk mkGenericArgs DiskInfoRep.zero).
Defined.

(** On the failing backend: MakeBucket fails with a stamped reply,
    ListBuckets and DiskInfo fail with the reply untouched. *)
Lemma backend_failure_is_surfaced_witness :
  fst (MakeBucket Scripted.goodRequest (MakeBucketArgs.mk "new")
                  GenericRep.zero Faulty.world0)
    = (GenericRep.mk "ui-1", Some (json2_Error "backend failure")) /\
  fst (RemoveObject Scripted.goodRequest
                    (RemoveObjectArgs.mk "host" "photos" "gone.txt")
                    GenericRep.zero Faulty.world0)
    = (GenericRep.mk "ui-1", Some (json2_Error "backend failure")) /\
  fst (ListBuckets Scripted.goodRequest mkGenericArgs ListBucketsRep.zero
                   Faulty.world0)
    = (ListBucketsRep.zero, Some (json2_Error "disk unreadable")) /\
  fst (DiskInfo Scripted.goodRequest mkGenericArgs DiskInfoRep.zero
                Faulty.world0)
    = (DiskInfoRep.zero, Some (json2_Error "no such file or directory")).
Proof.
  pose proof (@backend_failure_is_surfaced
                Faulty.State Faulty.platform Faulty.filesystem Faulty.auth
                Faulty.world0 Scripted.goodRequest eq_refl)
    as (Hmk & Hrm & Hls & Hdisk).
  repeat match goal with |- _ /\ _ => split end.
  - apply (Hmk (MakeBucketArgs.mk "new") GenericRep.zero _ _ eq_refl).
  - apply (Hrm (RemoveObjectArgs.mk "host" "photos" "gone.txt")
               GenericRep.zero _ _ eq_refl).
  - apply (Hls mkGenericArgs ListBucketsRep.zero _ _ _ eq_refl).
  - apply (Hdisk mkGenericArgs DiskInfoRep.zero _ _ _ _ _ eq_refl eq_refl).
Defined.

(** On the failing backend the host name lookup fails and the name that
    came with the failure does not reach the reply. *)
Lemma ServerInfo_never_fails_witness :
  snd (fst (ServerInfo Scripted.goodRequest mkGenericArgs ServerInfoRep.zero
                       Faulty.world0)) = None /\
  ServerInfoRep.MinioPlatform
    (fst (fst (ServerInfo Scripted.goodRequest mkGenericArgs
                          ServerInfoRep.zero Faulty.world0)))
    = "Host:  | OS: linux | Arch: amd64".
Proof.
  pose proof (@ServerInfo_never_fails
                Faulty.State Faulty.platform Faulty.auth
                Faulty.world0 Scripted.goodRequest mkGenericArgs
                ServerInfoRep.zero eq_refl)
    as (Hok & _ & Hfail & _).
  split; [exact Hok |].
  apply (Hfail _ _ _ eq_refl).
Defined.

(** On the failing backend SetAuth's save fails, yet the new pair is the
    active one afterwards. *)
Lemma SetAuth_replaces_credential_first_witness :
  serverConfig (snd (SetAuth Scripted.goodRequest
                             (SetAuthArgs.mk "newkey" "newsecret")
                             SetAuthReply.zero Faulty.world0))
  = mkCredential "newkey" "newsecret".
Proof.
  pose proof (@SetAuth_replaces_credential_first
                Faulty.State Faulty.platform Faulty.auth
                Faulty.world0 Scripted.goodRequest
                (SetAuthArgs.mk "newkey" "newsecret") SetAuthReply.zero
                eq_refl) as H.
  simpl in H. apply H; discriminate.
Defined.

Lemma SetAuth_failed_save_is_not_rolled_back_witness :
  SetAuth Scripted.goodRequest (SetAuthArgs.mk "newkey" "newsecret")
          SetAuthReply.zero Faulty.world0
  = ((SetAuthReply.zero, Some (json2_Error "read-only file system")),
     {| sys := Faulty.mkState 1;
        serverConfig := mkCredential "newkey" "newsecret";
        calls := [call_SetCredential (mkCredential "newkey" "newsecret");
                  call_Save] |}).
Proof.
  apply (@SetAuth_failed_save_is_not_rolled_back
           Faulty.State Faulty.platform Faulty.auth
           Faulty.world0 Scripted.goodRequest
           (SetAuthArgs.mk "newkey" "newsecret") SetAuthReply.zero
           (mkProbe (otherError "*os.PathError" "read-only file system") "Save")
           (Faulty.mkState 1) eq_refl);
    [discriminate | discriminate | reflexivity].
Defined.

(** On the scripted backend SetAuth succeeds with its four calls. *)
Lemma SetAuth_success_trace_witness :
  calls (snd (SetAuth Scripted.goodRequest
                      (SetAuthArgs.mk "newkey" "newsecret")
                      SetAuthReply.zero Scripted.world0))
  = [call_SetCredential (mkCredential "newkey" "newsecret"); call_Save;
     call_Authenticate "newkey" "newsecret"; call_GenerateToken "newkey"].
Proof.
  pose proof (@SetAuth_success_trace
                Scripted.State Scripted.platform Scripted.auth
                Scripted.world0
                (snd (SetAuth Scripted.goodRequest
                              (SetAuthArgs.mk "newkey" "newsecret")
                              SetAuthReply.zero Scripted.world0))
                Scripted.goodRequest (SetAuthArgs.mk "newkey" "newsecret")
                SetAuthReply.zero
                (SetAuthReply.mk "HS256.newsecret" "ui-1") eq_refl) as H.
  simpl in H. destruct H as (_ & _ & Hcalls & _). exact Hcalls.
Defined.

(** Login without any token: a wrong password is refused and a right one
    gets a token on the scripted backend; on the failing backend the
    issuance fails and its trace is passed on as data. *)
Lemma Login_outcomes_witness :
  fst (Login Scripted.anonRequest (LoginArgs.mk "admin" "wrongpw")
             LoginRep.zero Scripted.world0)
    = (LoginRep.zero, Some (json2_Error "Invalid credentials")) /\
  fst (Login Scripted.anonRequest (LoginArgs.mk "admin" "secret123")
             LoginRep.zero Scripted.world0)
    = (LoginRep.mk "HS256.secret123" "ui-1", None) /\
  fst (Login Scripted.anonRequest (LoginArgs.mk "admin" "secret123")
             LoginRep.zero Faulty.world0)
    = (LoginRep.zero,
       Some {| Message := "signing failed"; Data := Some "GenerateToken" |}).
Proof.
  repeat match goal with |- _ /\ _ => split end.
  - pose proof (@Login_outcomes
                  Scripted.State Scripted.platform Scripted.auth
                  Scripted.world0 Scripted.anonRequest
                  (LoginArgs.mk "admin" "wrongpw") LoginRep.zero)
      as (Hno & _ & _).
    simpl in Hno. rewrite (Hno eq_refl). reflexivity.
  - pose proof (@Login_outcomes
                  Scripted.State Scripted.platform Scripted.auth
                  Scripted.world0 Scripted.anonRequest
                  (LoginArgs.mk "admin" "secret123") LoginRep.zero)
      as (_ & Hok & _).
    simpl in Hok. rewrite (Hok _ _ eq_refl eq_refl). reflexivity.
  - pose proof (@Login_outcomes
                  Faulty.State Faulty.platform Faulty.auth
                  Faulty.world0 Scripted.anonRequest
                  (LoginArgs.mk "admin" "secret123") LoginRep.zero)
      as (_ & _ & Hfail).
    simpl in Hfail. rewrite (Hfail _ _ _ eq_refl eq_refl). reflexivity.
Defined.

(** After GenerateAuth on the scripted backend GetAuth still answers
    admin/secret123. *)
Lemma GenerateAuth_does_not_activate_witness :
  fst (GenerateAuth Scripted.goodRequest mkGenericArgs
                    GenerateAuthReply.zero Scripted.world0)
    = (GenerateAuthReply.mk "GENERATEDKEY" "generatedsecret" "ui-1", None) /\
  fst (GetAuth Scripted.goodRequest mkGenericArgs GetAuthReply.zero
               (snd (GenerateAuth Scripted.goodRequest mkGenericArgs
                                  GenerateAuthReply.zero Scripted.world0)))
    = (GetAuthReply.mk "admin" "secret123" "ui-1", None).
Proof.
  apply (@GenerateAuth_does_not_activate
           Scripted.State Scripted.platform Scripted.auth
           Scripted.world0 Scripted.goodRequest Scripted.goodRequest
           mkGenericArgs mkGenericArgs GenerateAuthReply.zero
           GetAuthReply.zero eq_refl eq_refl).
Defined.



(** The request without a query on the scripted backend. *)
Lemma Download_without_token_is_refused_witness :
  Download [] Scripted.anonRequest Scripted.world0
  = ([WriteHeader 403; Write "Invalid token"], Scripted.world0).
Proof.
  apply (@Download_without_token_is_refused
           Scripted.State Scripted.platform Scripted.filesystem
           Scripted.auth Scripted.apiErrors
           Scripted.world0 [] Scripted.anonRequest).
  - intros v H. exact H.
  - reflexivity.
Defined.

(** Upload without a token on the scripted backend. *)
Lemma Upload_unauthorized_makes_no_call_witness :
  Upload [] Scripted.anonRequest Scripted.world0
  = ([WriteHeader 403; Write "Invalid token"], Scripted.world0).
Proof.
  apply (@Upload_unauthorized_makes_no_call
           Scripted.State Scripted.platform Scripted.filesystem
           Scripted.auth Scripted.apiErrors
           Scripted.world0 [] Scripted.anonRequest eq_refl).
Defined.

(** After setting newkey/newsecret on the scripted backend a token issued
    under the new secret passes the check, and the token issued under the
    old one no longer does. *)
Lemma SetAuth_rotates_the_secret_witness :
  isJWTReqAuthenticated
    (snd (SetAuth Scripted.goodRequest (SetAuthArgs.mk "newkey" "newsecret")
                  SetAuthReply.zero Scripted.world0))
    (Scripted.request "Bearer HS256.newsecret" []) = true /\
  isJWTReqAuthenticated
    (snd (SetAuth Scripted.goodRequest (SetAuthArgs.mk "newkey" "newsecret")
                  SetAuthReply.zero Scripted.world0))
    Scripted.goodRequest = false.
Proof.
  split; [| reflexivity].
  pose proof (@SetAuth_rotates_the_secret
                Scripted.State Scripted.platform Scripted.auth
                Scripted.world0
                (snd (SetAuth Scripted.goodRequest
                              (SetAuthArgs.mk "newkey" "newsecret")
                              SetAuthReply.zero Scripted.world0))
                Scripted.goodRequest
                (Scripted.request "Bearer HS256.newsecret" [])
                (SetAuthArgs.mk "newkey" "newsecret") SetAuthReply.zero
                (SetAuthReply.mk "HS256.newsecret" "ui-1")) as H.
  specialize (H eq_refl). apply H.
  exists "HS256.newsecret",
         (mkToken "HS256.newsecret" (SigningMethodHMAC "HS256") "HS256" false).
  repeat split.
Defined.
